(** * Stripe payment monitor: a shallow embedding of [src/index.js]

    The Express application of [src/index.js] receives Stripe webhooks,
    normalises the three payment-failure event shapes into one record
    and hands the record to two collaborators: a Gmail alert and an
    Airtable row.  This file embeds the handlers as functions over an
    explicit world (the [logs] array, the console, a ghost call trace)
    inside a small state-and-exception monad, and proves the properties
    of the specification about them. *)

From Stdlib Require Import ZArith List String Ascii Bool Lia DecimalString.
Import ListNotations.

Local Open Scope string_scope.
Local Open Scope Z_scope.

(** ** JavaScript values

    The values that reach the handlers come out of [JSON.parse] (the
    event), from [process.env] (strings or [undefined]) and from the
    collaborators' return values.  Numbers are the integer-valued
    doubles plus [NaN]; fractional and infinite numbers do not occur in
    the payload fields the handlers read (epoch seconds, minor-currency
    amounts) and are outside the model.  An object is the list of its
    own properties, looked up by name (first binding wins); no value
    is callable.  Strings are byte strings. *)

#[warnings="-register-all"]
Inductive jsval : Type :=
| JUndefined
| JNull
| JBool (b : bool)
| JNum (z : Z)
| JNaN
| JStr (s : string)
| JObj (fields : list (string * jsval))
| JArr (items : list jsval).

(** An [Error] object as the handlers use it: they only ever read
    [error.message]. *)
Record error : Type := mkError { err_name : string; err_message : string }.

Inductive result (A : Type) : Type :=
| Ok (a : A)
| Throw (e : error).
Arguments Ok {A} a.
Arguments Throw {A} e.

Definition rbind {A B} (r : result A) (k : A -> result B) : result B :=
  match r with
  | Ok a => k a
  | Throw e => Throw e
  end.

Declare Scope js_scope.
Delimit Scope js_scope with js.
Notation "x <~ r ;; k" := (rbind r (fun x => k))
  (at level 61, r at next level, right associativity) : js_scope.

(** What the handlers take from the JavaScript engine and the model does
    not compute: the text of a number beyond the safe integers, the
    time value of [new Date(s * 1000)] for a string [s] ([None] is
    [NaN]), and the upper-case form of a string that is not plain
    ASCII. *)
Record runtime : Type := mkRuntime {
  NumberToString : Z -> string;
  StringTimes1000 : string -> option Z;
  StringToUpperCase : string -> string
}.

Module JS.

(** [ToBoolean]: the falsy values are [undefined], [null], [false],
    [0], [NaN] and the empty string. *)
Definition truthy (v : jsval) : bool :=
  match v with
  | JUndefined | JNull | JNaN => false
  | JBool b => b
  | JNum z => negb (z =? 0)
  | JStr s => negb (String.eqb s "")
  | JObj _ | JArr _ => true
  end.

(** [a || b] (the right operand has no effect in the source, so it is
    passed evaluated). *)
Definition or (a b : jsval) : jsval := if truthy a then a else b.

Definition is_defined (v : jsval) : bool :=
  match v with JUndefined => false | _ => true end.

Definition string_of_Z (z : Z) : string :=
  NilZero.string_of_int (Z.to_int z).

(** The safe integers, which print in plain decimal: up to 2^53. *)
Definition max_safe : Z := 9007199254740992.

Definition number_to_string (R : runtime) (z : Z) : string :=
  if Z.abs z <=? max_safe then string_of_Z z else NumberToString R z.

(** The object has an own property [k]. *)
Definition has_key (k : string) (fields : list (string * jsval)) : bool :=
  existsb (fun kv => String.eqb k (fst kv)) fields.

Definition not_primitive : error :=
  mkError "TypeError" "Cannot convert object to primitive value".

(** [ToString], as template literals apply it.  An object answers
    with [Object.prototype.toString] unless an own property hides it:
    that property is not callable, [valueOf] gives the object back and
    the conversion throws.  An array joins the text of its elements,
    [undefined] and [null] counting as empty. *)
Fixpoint to_string (R : runtime) (v : jsval) : result string :=
  match v with
  | JUndefined => Ok "undefined"
  | JNull => Ok "null"
  | JBool true => Ok "true"
  | JBool false => Ok "false"
  | JNum z => Ok (number_to_string R z)
  | JNaN => Ok "NaN"
  | JStr s => Ok s
  | JObj fields =>
      if has_key "toString" fields then Throw not_primitive
      else Ok "[object Object]"
  | JArr items =>
      (fix join (l : list jsval) : result string :=
         match l with
         | [] => Ok ""
         | x :: r =>
             match match x with
                   | JUndefined | JNull => Ok ""
                   | _ => to_string R x
                   end with
             | Throw e => Throw e
             | Ok sx =>
                 match r with
                 | [] => Ok sx
                 | _ :: _ =>
                     match join r with
                     | Throw e => Throw e
                     | Ok sr => Ok (sx ++ "," ++ sr)
                     end
                 end
             end
         end) items
  end.

(** [ToPrimitive]: an object or an array becomes its text, with either
    hint (no value being callable, the two hints fail together). *)
Definition to_primitive (R : runtime) (v : jsval) : result jsval :=
  match v with
  | JObj _ | JArr _ =>
      match to_string R v with
      | Ok s => Ok (JStr s)
      | Throw e => Throw e
      end
  | _ => Ok v
  end.

Fixpoint assoc (k : string) (fields : list (string * jsval)) : jsval :=
  match fields with
  | [] => JUndefined
  | (k', v) :: rest => if String.eqb k k' then v else assoc k rest
  end.

Definition cannot_read (of_ : string) (k : string) : error :=
  mkError "TypeError"
    ("Cannot read properties of " ++ of_ ++ " (reading '" ++ k ++ "')").

(** [v.k] for the property names the source reads: none of them is a
    built-in property of a string, number, boolean or array, so only
    an object can answer with something else than [undefined]; on
    [undefined] and [null] the access throws. *)
Definition get (v : jsval) (k : string) : result jsval :=
  match v with
  | JUndefined => Throw (cannot_read "undefined" k)
  | JNull => Throw (cannot_read "null" k)
  | JObj fields => Ok (assoc k fields)
  | _ => Ok JUndefined
  end.

(** [v?.k]: short-circuits to [undefined] on [undefined] and [null]. *)
Definition get_opt (v : jsval) (k : string) : jsval :=
  match v with
  | JObj fields => assoc k fields
  | _ => JUndefined
  end.

(** [v[0]]. *)
Definition get0 (v : jsval) : result jsval :=
  match v with
  | JUndefined => Throw (cannot_read "undefined" "0")
  | JNull => Throw (cannot_read "null" "0")
  | JObj fields => Ok (assoc "0" fields)
  | JArr items => Ok (nth 0 items JUndefined)
  | JStr s => Ok match s with
                 | EmptyString => JUndefined
                 | String c _ => JStr (String c EmptyString)
                 end
  | _ => Ok JUndefined
  end.

(** [v === 'lit']. *)
Definition strict_eq_str (v : jsval) (lit : string) : bool :=
  match v with
  | JStr s => String.eqb s lit
  | _ => false
  end.

(** [[...lits].includes(v)] for an array of string literals. *)
Definition includes (lits : list string) (v : jsval) : bool :=
  existsb (strict_eq_str v) lits.

Definition upper_ascii (c : ascii) : ascii :=
  let n := nat_of_ascii c in
  if (Nat.leb 97 n && Nat.leb n 122)%bool then ascii_of_nat (n - 32) else c.

Fixpoint upper (s : string) : string :=
  match s with
  | EmptyString => EmptyString
  | String c r => String (upper_ascii c) (upper r)
  end.

Fixpoint ascii_only (s : string) : bool :=
  match s with
  | EmptyString => true
  | String c r => Nat.ltb (nat_of_ascii c) 128 && ascii_only r
  end.

(** [String.prototype.toUpperCase]: on plain ASCII it maps a-z to A-Z
    and nothing else; the mapping of other text is the engine's. *)
Definition upper_string (R : runtime) (s : string) : string :=
  if ascii_only s then upper s else StringToUpperCase R s.

(** [expr.toUpperCase()], where [src] is the text of [expr] (it shows
    in the error message). *)
Definition toUpperCase (R : runtime) (src : string) (v : jsval)
  : result string :=
  match v with
  | JUndefined => Throw (cannot_read "undefined" "toUpperCase")
  | JNull => Throw (cannot_read "null" "toUpperCase")
  | JStr s => Ok (upper_string R s)
  | _ => Throw (mkError "TypeError" (src ++ ".toUpperCase is not a function"))
  end.

End JS.

(** ** Dates

    [new Date(ms).toISOString()] on the proleptic Gregorian calendar.
    A time value is valid within 8.64e15 milliseconds of the epoch;
    [toISOString] throws a [RangeError] on an invalid date. *)

Module Date.

Definition ms_per_day : Z := 86400000.
Definition max_time : Z := 8640000000000000.

Fixpoint digits (width : nat) (n : Z) : string :=
  match width with
  | O => EmptyString
  | S w =>
      digits w (n / 10) ++
      String (ascii_of_nat (48 + Z.to_nat (n mod 10))) EmptyString
  end.

(** Year, month and day of the day number [days] (days since
    1970-01-01), by 400-year eras starting on 1 March. *)
Definition civil (days : Z) : Z * Z * Z :=
  let z := days + 719468 in
  let era := z / 146097 in
  let doe := z - era * 146097 in
  let yoe := (doe - doe / 1460 + doe / 36524 - doe / 146096) / 365 in
  let doy := doe - (365 * yoe + yoe / 4 - yoe / 100) in
  let mp := (5 * doy + 2) / 153 in
  let d := doy - (153 * mp + 2) / 5 + 1 in
  let m := if mp <? 10 then mp + 3 else mp - 9 in
  let y := yoe + era * 400 + (if m <=? 2 then 1 else 0) in
  (y, m, d).

Definition year_string (y : Z) : string :=
  if (0 <=? y) && (y <=? 9999) then digits 4 y
  else (if y <? 0 then "-" else "+") ++ digits 6 (Z.abs y).

(** The text [YYYY-MM-DDTHH:mm:ss.sssZ] of the time value [ms]. *)
Definition iso_string (ms : Z) : string :=
  let days := ms / ms_per_day in
  let rest := ms mod ms_per_day in
  let '(y, m, d) := civil days in
  year_string y ++ "-" ++ digits 2 m ++ "-" ++ digits 2 d ++ "T" ++
  digits 2 (rest / 3600000) ++ ":" ++
  digits 2 ((rest / 60000) mod 60) ++ ":" ++
  digits 2 ((rest / 1000) mod 60) ++ "." ++
  digits 3 (rest mod 1000) ++ "Z".

Definition valid (ms : Z) : bool := (- max_time <=? ms) && (ms <=? max_time).

Definition invalid_time : error := mkError "RangeError" "Invalid time value".

(** [new Date(t).toISOString()] for a number [t] ([None] is [NaN]). *)
Definition toISOString (t : option Z) : result string :=
  match t with
  | Some ms => if valid ms then Ok (iso_string ms) else Throw invalid_time
  | None => Throw invalid_time
  end.

End Date.

(** ** The world and the handlers' monad

    [logs] is the module-level array of the source, [console] what
    [console.log] has printed, [ticks] the number of times the clock
    has been read.  [trace] is ghost state: it records the entries and
    exits of the three internal operations and the calls made to the
    two collaborators, each with its outcome; the program never reads
    it. *)

Record log_entry : Type := mkLog { timestamp : string; message : string }.

Record payment_data : Type := mkPaymentData {
  payment_id : jsval;
  customer_email : jsval;
  amount : jsval;
  currency : jsval;
  failure_code : jsval;
  failure_message : jsval;
  failed_at : jsval
}.

(** [x / 100] is kept as the pair of its operands: the division is a
    floating-point one. *)
Record quotient : Type := mkQuotient { dividend : jsval; divisor : Z }.

(** The alert handed to [gmail.users.messages.send], as the values that
    the templates of [sendGmailAlert] interpolate.  The MIME framing
    and the base64url encoding of the message are fixed text around
    these values and are not part of the model; [body_amount] stands
    for [(amount / 100).toFixed(2)]. *)
Record gmail_message : Type := mkGmailMessage {
  mail_to : string;
  subject_customer : string;
  body_payment_id : string;
  body_customer : string;
  body_amount : quotient;
  body_currency : string;
  body_failure_code : string;
  body_failure_message : string;
  body_date : string
}.

(** The [fields] object handed to [table.create]. *)
Record airtable_fields : Type := mkFields {
  Payment_ID : jsval;
  Customer_Email : jsval;
  Amount : quotient;
  Currency : jsval;
  Failure_Code : jsval;
  Failure_Message : jsval;
  Failed_At : jsval;
  Status : jsval;
  Created_At : jsval
}.

Inductive fn : Type :=
| fn_processFailedPayment
| fn_sendGmailAlert
| fn_addToAirtable.

Inductive event : Type :=
| Enter (f : fn)
| Leave (f : fn)
| GmailSend (m : gmail_message) (outcome : result unit)
| TableCreate (row : airtable_fields) (outcome : result jsval).

Record world : Type := mkWorld {
  logs : list log_entry;
  console : list string;
  ticks : nat;
  trace : list event
}.

(** What the handlers do not control: the clock (whose time values, as
    all time values, are safe integers), the engine, the process
    environment (a variable that is set is a string) and the three
    external libraries.  A collaborator may answer differently from
    call to call, so it sees the world it is called in. *)
Record env : Type := mkEnv {
  now : nat -> Z;
  engine : runtime;
  ALERT_EMAIL : option string;
  STRIPE_WEBHOOK_SECRET : jsval;
  constructEvent : world -> jsval -> jsval -> jsval -> result jsval;
  gmail_send : world -> gmail_message -> result unit;
  table_create : world -> airtable_fields -> result jsval
}.

(** The value of [process.env.NAME]. *)
Definition env_var (o : option string) : jsval :=
  match o with
  | Some s => JStr s
  | None => JUndefined
  end.

Definition M (A : Type) : Type := world -> world * result A.

Definition ret {A} (a : A) : M A := fun w => (w, Ok a).

Definition throw {A} (e : error) : M A := fun w => (w, Throw e).

Definition bind {A B} (m : M A) (k : A -> M B) : M B :=
  fun w =>
    match m w with
    | (w', Ok a) => k a w'
    | (w', Throw e) => (w', Throw e)
    end.

(** [try { m } catch (error) { h error }]. *)
Definition try_catch {A} (m : M A) (h : error -> M A) : M A :=
  fun w =>
    match m w with
    | (w', Ok a) => (w', Ok a)
    | (w', Throw e) => h e w'
    end.

Definition lift {A} (r : result A) : M A := fun w => (w, r).

Definition traced (e : event) (w : world) : world :=
  mkWorld (logs w) (console w) (ticks w) (trace w ++ [e])%list.

(** A call of the internal operation [f]: the ghost trace brackets its
    body, whether it returns or throws. *)
Definition call {A} (f : fn) (body : M A) : M A :=
  fun w =>
    match body (traced (Enter f) w) with
    | (w', r) => (traced (Leave f) w', r)
    end.

Notation "x <- m ;; k" := (bind m (fun x => k))
  (at level 61, m at next level, right associativity) : js_scope.
Notation "m ;;; k" := (bind m (fun _ => k))
  (at level 61, right associativity) : js_scope.

Local Open Scope js_scope.

(** [new Date().toISOString()]: the current time is a valid time
    value. *)
Definition ticked (w : world) : world :=
  mkWorld (logs w) (console w) (S (ticks w)) (trace w).

Definition now_iso (E : env) : M string :=
  fun w => (ticked w, Ok (Date.iso_string (now E (ticks w)))).

(** ** The log sink *)

(** [a.slice(-n)]. *)
Definition slice_last {A} (n : nat) (a : list A) : list A :=
  skipn (List.length a - n) a.

Definition push_log (l : list log_entry) (e : log_entry) : list log_entry :=
  let l1 := (l ++ [e])%list in
  if Nat.ltb 50 (List.length l1) then slice_last 50 l1 else l1.

Definition addLog (E : env) (message : string) : M unit :=
  timestamp <- now_iso E ;;
  fun w =>
    (mkWorld (push_log (logs w) (mkLog timestamp message))
             (console w ++ ["[" ++ timestamp ++ "] " ++ message]%string)%list
             (ticks w) (trace w),
     Ok tt).

(** ** The two channels *)

(** Calls of the collaborators: the environment answers, the ghost
    trace records the call and the answer. *)
Definition gmail_users_messages_send (E : env) (m : gmail_message) : M unit :=
  fun w =>
    let outcome := gmail_send E w m in
    (traced (GmailSend m outcome) w, outcome).

Definition table_create_call (E : env) (row : airtable_fields) : M jsval :=
  fun w =>
    let outcome := table_create E w row in
    (traced (TableCreate row outcome) w, outcome).

(** [x / 100]: the operand is converted to a number, which throws
    where [ToPrimitive] does; the quotient itself is kept symbolic. *)
Definition div_100 (R : runtime) (x : jsval) : result quotient :=
  _ <~ JS.to_primitive R x ;;
  Ok (mkQuotient x 100).

(** The subject, body and recipient of the alert, their interpolated
    expressions evaluated in the order of the source: the subject, the
    body from its first line to its last, the recipient. *)
Definition alert_message (E : env) (paymentData : payment_data)
  : result gmail_message :=
  let R := engine E in
  subject <~ JS.to_string R
               (JS.or (customer_email paymentData) (JStr "Unknown Customer")) ;;
  id <~ JS.to_string R (payment_id paymentData) ;;
  customer <~ JS.to_string R
                (JS.or (customer_email paymentData) (JStr "Not available")) ;;
  amount <~ div_100 R (amount paymentData) ;;
  cur <~ JS.toUpperCase R "paymentData.currency" (currency paymentData) ;;
  code <~ JS.to_string R
            (JS.or (failure_code paymentData) (JStr "Not specified")) ;;
  msg <~ JS.to_string R
           (JS.or (failure_message paymentData) (JStr "Not specified")) ;;
  date <~ JS.to_string R (failed_at paymentData) ;;
  to <~ JS.to_string R
          (JS.or (env_var (ALERT_EMAIL E)) (JStr "admin@example.com")) ;;
  Ok {| mail_to := to;
        subject_customer := subject;
        body_payment_id := id;
        body_customer := customer;
        body_amount := amount;
        body_currency := cur;
        body_failure_code := code;
        body_failure_message := msg;
        body_date := date |}.

Definition sendGmailAlert (E : env) (paymentData : payment_data) : M unit :=
  call fn_sendGmailAlert
    (try_catch
       (m <- lift (alert_message E paymentData) ;;
        gmail_users_messages_send E m ;;;
        id <- lift (JS.to_string (engine E) (payment_id paymentData)) ;;
        addLog E ("Gmail alert sent for payment " ++ id))
       (fun error =>
          addLog E ("Error sending Gmail alert: " ++ err_message error))).

(** The [fields] of the row, evaluated in the order of the object
    literal: the amount is divided and the currency upper-cased before
    the clock is read. *)
Definition airtable_row (E : env) (paymentData : payment_data)
  : M airtable_fields :=
  amount <- lift (div_100 (engine E) (amount paymentData)) ;;
  cur <- lift (JS.toUpperCase (engine E) "paymentData.currency"
                 (currency paymentData)) ;;
  created <- now_iso E ;;
  ret {| Payment_ID := payment_id paymentData;
         Customer_Email := JS.or (customer_email paymentData) (JStr "Unknown");
         Amount := amount;
         Currency := JStr cur;
         Failure_Code := JS.or (failure_code paymentData) (JStr "Unknown");
         Failure_Message := JS.or (failure_message paymentData) (JStr "Unknown");
         Failed_At := failed_at paymentData;
         Status := JStr "New";
         Created_At := JStr created |}.

Definition addToAirtable (E : env) (paymentData : payment_data) : M jsval :=
  call fn_addToAirtable
    (try_catch
       (row <- airtable_row E paymentData ;;
        record <- table_create_call E row ;;
        record0 <- lift (JS.get0 record) ;;
        id <- lift (JS.get record0 "id") ;;
        text <- lift (JS.to_string (engine E) id) ;;
        addLog E ("Added failed payment record to Airtable: " ++ text) ;;;
        ret record0)
       (fun error =>
          addLog E ("Error adding to Airtable: " ++ err_message error) ;;;
          throw error)).

(** ** The normalizer *)

(** The time value of [new Date(x * 1000)]; [None] is [NaN].  The
    operand is converted to a number, which throws where [ToPrimitive]
    does; an integer's product is exact wherever the date is valid;
    the text of an object or an array, like any string, is read by the
    engine. *)
Definition times_1000 (R : runtime) (x : jsval) : result (option Z) :=
  p <~ JS.to_primitive R x ;;
  Ok match p with
     | JNum z => Some (z * 1000)
     | JNull => Some 0
     | JBool b => Some (if b then 1000 else 0)
     | JStr s => StringTimes1000 R s
     | _ => None
     end.

(** [new Date(event.created * 1000).toISOString()]. *)
Definition event_created_iso (E : env) (event : jsval) : result jsval :=
  created <~ JS.get event "created" ;;
  t <~ times_1000 (engine E) created ;;
  s <~ Date.toISOString t ;;
  Ok (JStr s).

(** [event.data.object]. *)
Definition event_data_object (event : jsval) : result jsval :=
  data <~ JS.get event "data" ;;
  JS.get data "object".

(** The empty object [{}] that [paymentData] starts as. *)
Definition empty_payment_data : payment_data :=
  mkPaymentData JUndefined JUndefined JUndefined JUndefined
                JUndefined JUndefined JUndefined.

(** The value of [paymentData] after the [if ... else if] chain of
    [processFailedPayment]. *)
Definition paymentData_of (E : env) (event : jsval) : result payment_data :=
  type <~ JS.get event "type" ;;
  if JS.strict_eq_str type "payment_intent.payment_failed" then
    paymentIntent <~ event_data_object event ;;
    id <~ JS.get paymentIntent "id" ;;
    receipt_email <~ JS.get paymentIntent "receipt_email" ;;
    amount <~ JS.get paymentIntent "amount" ;;
    currency <~ JS.get paymentIntent "currency" ;;
    last_payment_error <~ JS.get paymentIntent "last_payment_error" ;;
    failed <~ event_created_iso E event ;;
    Ok {| payment_id := id;
          customer_email := JS.or receipt_email (JStr "Unknown");
          amount := amount;
          currency := currency;
          failure_code := JS.get_opt last_payment_error "code";
          failure_message := JS.get_opt last_payment_error "message";
          failed_at := failed |}
  else if JS.strict_eq_str type "invoice.payment_failed" then
    invoice <~ event_data_object event ;;
    id <~ JS.get invoice "id" ;;
    email <~ JS.get invoice "customer_email" ;;
    amount_due <~ JS.get invoice "amount_due" ;;
    currency <~ JS.get invoice "currency" ;;
    failed <~ event_created_iso E event ;;
    Ok {| payment_id := id;
          customer_email := JS.or email (JStr "Unknown");
          amount := amount_due;
          currency := currency;
          failure_code := JStr "invoice_payment_failed";
          failure_message := JStr "Invoice payment failed";
          failed_at := failed |}
  else if JS.strict_eq_str type "charge.failed" then
    charge <~ event_data_object event ;;
    id <~ JS.get charge "id" ;;
    receipt_email <~ JS.get charge "receipt_email" ;;
    billing_details <~ JS.get charge "billing_details" ;;
    amount <~ JS.get charge "amount" ;;
    currency <~ JS.get charge "currency" ;;
    code <~ JS.get charge "failure_code" ;;
    msg <~ JS.get charge "failure_message" ;;
    failed <~ event_created_iso E event ;;
    Ok {| payment_id := id;
          customer_email :=
            JS.or receipt_email
                  (JS.or (JS.get_opt billing_details "email") (JStr "Unknown"));
          amount := amount;
          currency := currency;
          failure_code := code;
          failure_message := msg;
          failed_at := failed |}
  else Ok empty_payment_data.

Definition processFailedPayment (E : env) (event : jsval) : M unit :=
  call fn_processFailedPayment
    (try_catch
       (paymentData <- lift (paymentData_of E event) ;;
        id <- lift (JS.to_string (engine E) (payment_id paymentData)) ;;
        addLog E ("Processing failed payment: " ++ id) ;;;
        sendGmailAlert E paymentData ;;;
        _ <- addToAirtable E paymentData ;;
        id <- lift (JS.to_string (engine E) (payment_id paymentData)) ;;
        addLog E ("Successfully processed failed payment: " ++ id))
       (fun error =>
          addLog E ("Error processing failed payment: " ++ err_message error) ;;;
          throw error)).

(** ** The endpoints *)

Inductive response : Type :=
| Send (status : Z) (text : string)
| Json (status : Z) (value : jsval).

Definition recognized : list string :=
  ["payment_intent.payment_failed"; "invoice.payment_failed"; "charge.failed"].

Definition received_true : jsval := JObj [("received", JBool true)].

Definition stripe_webhooks_constructEvent (E : env) (body sig : jsval)
  : M jsval :=
  fun w => (w, constructEvent E w body sig (STRIPE_WEBHOOK_SECRET E)).

(** [POST /webhook/stripe] with [req.body = body] and
    [req.headers['stripe-signature'] = sig].  The handler is [async]:
    [Throw] is a rejection of its promise, with no response sent. *)
Definition post_webhook_stripe (E : env) (body sig : jsval) : M response :=
  verified <-
    try_catch
      (event <- stripe_webhooks_constructEvent E body sig ;; ret (inl event))
      (fun err =>
         addLog E ("Webhook signature verification failed: " ++
                   err_message err) ;;;
         ret (inr (Send 400 ("Webhook Error: " ++ err_message err)))) ;;
  match verified with
  | inr early => ret early
  | inl event =>
      type <- lift (JS.get event "type") ;;
      if JS.includes recognized type then
        caught <-
          try_catch
            (processFailedPayment E event ;;;
             text <- lift (JS.to_string (engine E) type) ;;
             addLog E ("Webhook processed successfully: " ++ text) ;;;
             ret None)
            (fun error =>
               addLog E ("Error processing webhook: " ++ err_message error) ;;;
               ret (Some (Send 500 "Internal Server Error"))) ;;
        match caught with
        | Some early => ret early
        | None => ret (Json 200 received_true)
        end
      else
        text <- lift (JS.to_string (engine E) type) ;;
        addLog E ("Unhandled event type: " ++ text) ;;;
        ret (Json 200 received_true)
  end.

(** [GET /logs]: the last 20 entries and the number of entries held. *)
Definition get_logs (w : world) : list log_entry * nat :=
  (slice_last 20 (logs w), List.length (logs w)).

(** The world at start-up: [let logs = []]. *)
Definition initial_world : world := mkWorld [] [] 0 [].

(** The world after [addLog(message)]. *)
Definition logged (E : env) (message : string) (w : world) : world :=
  let timestamp := Date.iso_string (now E (ticks w)) in
  mkWorld (push_log (logs w) (mkLog timestamp message))
          (console w ++ ["[" ++ timestamp ++ "] " ++ message]%string)%list
          (S (ticks w)) (trace w).

(** ** Vocabulary of the specification *)

(** A record field that is absent ([undefined], [null]) or empty. *)
Definition absent_or_empty (v : jsval) : bool :=
  match v with
  | JUndefined | JNull => true
  | JStr s => String.eqb s ""
  | _ => false
  end.


(** An event envelope as Stripe delivers it: an object with the type
    tag [type], the payload object [object] under [data.object] and the
    creation time [created] in epoch seconds, a valid date. *)
Definition envelope (type : string) (created : Z)
    (object : list (string * jsval)) (event : jsval) : Prop :=
  JS.get event "type" = Ok (JStr type) /\
  event_data_object event = Ok (JObj object) /\
  JS.get event "created" = Ok (JNum created) /\
  Date.valid (created * 1000) = true.

(** The payload field that carries the amount for an event type. *)
Definition amount_field (type : string) : string :=
  if String.eqb type "invoice.payment_failed" then "amount_due" else "amount".

(** An ordered fallback: the first source that is present, else the
    sentinel.  A source is present when it holds a value JavaScript
    counts as true; for an e-mail field, a non-empty string. *)
Definition first_present (sources : list jsval) (sentinel : jsval) : jsval :=
  match find JS.truthy sources with
  | Some v => v
  | None => sentinel
  end.

(** All seven fields of the record hold a value. *)
Definition record_defined (pd : payment_data) : bool :=
  JS.is_defined (payment_id pd) && JS.is_defined (customer_email pd) &&
  JS.is_defined (amount pd) && JS.is_defined (currency pd) &&
  JS.is_defined (failure_code pd) && JS.is_defined (failure_message pd) &&
  JS.is_defined (failed_at pd).

(** The ghost events that one delivery adds to the trace. *)
Definition delivery_trace (E : env) (body sig : jsval) (w : world)
  : list event :=
  skipn (List.length (trace w)) (trace (fst (post_webhook_stripe E body sig w))).

(** What [addToAirtable] makes of the answer of [table.create]: the
    first record and the text of its [id]. *)
Definition store_answer (R : runtime) (outcome : result jsval)
  : result (jsval * string) :=
  record <~ outcome ;;
  record0 <~ JS.get0 record ;;
  id <~ JS.get record0 "id" ;;
  text <~ JS.to_string R id ;;
  Ok (record0, text).

(** The store append succeeded: [table.create] answered with a list
    whose first record and its [id] can be read and logged. *)
Definition appended (R : runtime) (outcome : result jsval) : bool :=
  match store_answer R outcome with
  | Ok _ => true
  | Throw _ => false
  end.

(** A value that is neither an object nor an array. *)
Definition is_primitive (v : jsval) : bool :=
  match v with
  | JObj _ | JArr _ => false
  | _ => true
  end.

(** A record whose seven fields are primitive values. *)
Definition plain_record (pd : payment_data) : bool :=
  is_primitive (payment_id pd) && is_primitive (customer_email pd) &&
  is_primitive (amount pd) && is_primitive (currency pd) &&
  is_primitive (failure_code pd) && is_primitive (failure_message pd) &&
  is_primitive (failed_at pd).

(** The record of an event and the text of its identifier, which
    [processFailedPayment] needs before it enters the channels. *)
Definition record_of (E : env) (event : jsval)
  : result (payment_data * string) :=
  pd <~ paymentData_of E event ;;
  id <~ JS.to_string (engine E) (payment_id pd) ;;
  Ok (pd, id).

(** The two fields of a stored row whose evaluation can throw. *)
Definition row_values (R : runtime) (pd : payment_data)
  : result (quotient * string) :=
  amount <~ div_100 R (amount pd) ;;
  cur <~ JS.toUpperCase R "paymentData.currency" (currency pd) ;;
  Ok (amount, cur).

(** [message] is in the log sink, under some timestamp. *)
Definition logged_in (message : string) (w : world) : Prop :=
  exists timestamp, In (mkLog timestamp message) (logs w).

(** [message] is among the last [k] entries of the sink. *)
Definition logged_recently (k : nat) (message : string) (w : world) : Prop :=
  exists timestamp, In (mkLog timestamp message) (slice_last k (logs w)).

(** ** Sample deliveries *)

Module Sample.

Definition mk_event (type : string) (created : Z)
    (object : list (string * jsval)) : jsval :=
  JObj [("id", JStr "evt_1"); ("type", JStr type); ("created", JNum created);
        ("data", JObj [("object", JObj object)])].

(** The charge of the specification's round-trip scenario. *)
Definition charge : list (string * jsval) :=
  [("id", JStr "ch_1"); ("amount", JNum 2500); ("currency", JStr "usd");
   ("receipt_email", JStr "a@b.com");
   ("failure_code", JStr "card_declined");
   ("failure_message", JStr "Your card was declined.")].

Definition charge_failed : jsval := mk_event "charge.failed" 1700000000 charge.

(** A payment intent that failed without a [last_payment_error]. *)
Definition intent : list (string * jsval) :=
  [("id", JStr "pi_1"); ("amount", JNum 2500); ("currency", JStr "usd");
   ("receipt_email", JNull)].

Definition intent_failed : jsval :=
  mk_event "payment_intent.payment_failed" 1700000000 intent.

Definition customer_created : jsval :=
  mk_event "customer.created" 1700000000 [("id", JStr "cus_1")].

Definition invalid_grant : error := mkError "Error" "invalid_grant".

(** An engine that is never asked: the samples hold safe integers and
    ASCII text only. *)
Definition v8 : runtime :=
  {| NumberToString := fun _ => "";
     StringTimes1000 := fun _ => None;
     StringToUpperCase := fun s => s |}.

Definition created_record : jsval := JArr [JObj [("id", JStr "rec1")]].

(** Stripe accepts every body as signed and parses it to itself, the
    Gmail client rejects every send, Airtable stores every row. *)
Definition gmail_down : env :=
  {| now := fun n => 1700000000000 + Z.of_nat n;
     engine := v8;
     ALERT_EMAIL := None;
     STRIPE_WEBHOOK_SECRET := JStr "whsec_1";
     constructEvent := fun _ body _ _ => Ok body;
     gmail_send := fun _ _ => Throw invalid_grant;
     table_create := fun _ _ => Ok created_record |}.

(** Every collaborator answers. *)
Definition healthy : env :=
  {| now := fun n => 1700000000000 + Z.of_nat n;
     engine := v8;
     ALERT_EMAIL := Some "ops@example.com";
     STRIPE_WEBHOOK_SECRET := JStr "whsec_1";
     constructEvent := fun _ body _ _ => Ok body;
     gmail_send := fun _ _ => Ok tt;
     table_create := fun _ _ => Ok created_record |}.

Definition bad_signature : error :=
  mkError "StripeSignatureVerificationError"
          "No signatures found matching the expected signature for payload.".

(** Stripe rejects every signature. *)
Definition forged : env :=
  {| now := fun n => 1700000000000 + Z.of_nat n;
     engine := v8;
     ALERT_EMAIL := None;
     STRIPE_WEBHOOK_SECRET := JStr "whsec_1";
     constructEvent := fun _ _ _ _ => Throw bad_signature;
     gmail_send := fun _ _ => Ok tt;
     table_create := fun _ _ => Ok created_record |}.

Definition signature : jsval := JStr "t=1700000000,v1=5257a869e7".

(** The alert for [charge_failed]. *)
Definition alert : gmail_message :=
  {| mail_to := "admin@example.com";
     subject_customer := "a@b.com";
     body_payment_id := "ch_1";
     body_customer := "a@b.com";
     body_amount := mkQuotient (JNum 2500) 100;
     body_currency := "USD";
     body_failure_code := "card_declined";
     body_failure_message := "Your card was declined.";
     body_date := "2023-11-14T22:13:20.000Z" |}.

(** A record whose optional fields are absent or empty. *)
Definition record : payment_data :=
  {| payment_id := JStr "ch_1";
     customer_email := JUndefined;
     amount := JNum 2500;
     currency := JStr "usd";
     failure_code := JUndefined;
     failure_message := JStr "";
     failed_at := JStr "2023-11-14T22:13:20.000Z" |}.

Definition quota_exceeded : error := mkError "AirtableError" "quota exceeded".

(** Gmail delivers, Airtable rejects every row. *)
Definition store_down : env :=
  {| now := fun n => 1700000000000 + Z.of_nat n;
     engine := v8;
     ALERT_EMAIL := None;
     STRIPE_WEBHOOK_SECRET := JStr "whsec_1";
     constructEvent := fun _ body _ _ => Ok body;
     gmail_send := fun _ _ => Ok tt;
     table_create := fun _ _ => Throw quota_exceeded |}.

(** A charge-failed envelope that lacks its creation time. *)
Definition charge_without_created : jsval :=
  JObj [("id", JStr "evt_2"); ("type", JStr "charge.failed");
        ("data", JObj [("object", JObj charge)])].

(** A charge-failed envelope that lacks its payload. *)
Definition charge_without_data : jsval :=
  JObj [("id", JStr "evt_3"); ("type", JStr "charge.failed");
        ("created", JNum 1700000000)].

(** An invoice whose customer has no e-mail address. *)
Definition invoice : list (string * jsval) :=
  [("id", JStr "in_1"); ("amount_due", JNum 990); ("currency", JStr "eur");
   ("customer_email", JNull)].

Definition invoice_failed : jsval :=
  mk_event "invoice.payment_failed" 1700000000 invoice.

(** A record that lacks its currency. *)
Definition record_without_currency : payment_data :=
  {| payment_id := JStr "ch_1";
     customer_email := JStr "a@b.com";
     amount := JNum 2500;
     currency := JUndefined;
     failure_code := JStr "card_declined";
     failure_message := JStr "Your card was declined.";
     failed_at := JStr "2023-11-14T22:13:20.000Z" |}.

(** An object that has no text: its [toString] entry is not a
    function. *)
Definition no_text : jsval := JObj [("toString", JNum 1)].

(** An envelope whose type is such an object. *)
Definition odd_type : jsval :=
  JObj [("id", JStr "evt_4"); ("type", no_text);
        ("created", JNum 1700000000)].

(** A failed charge whose identifier is such an object. *)
Definition odd_charge : list (string * jsval) :=
  [("id", no_text); ("amount", JNum 2500); ("currency", JStr "usd")].

Definition odd_charge_failed : jsval :=
  mk_event "charge.failed" 1700000000 odd_charge.

Definition odd_record : payment_data :=
  {| payment_id := no_text;
     customer_email := JStr "Unknown";
     amount := JNum 2500;
     currency := JStr "usd";
     failure_code := JUndefined;
     failure_message := JUndefined;
     failed_at := JStr "2023-11-14T22:13:20.000Z" |}.

End Sample.

(** ** Runs of the log sink *)

(** The entries that appending [messages] in turn creates, when the
    clock is first read at tick [t]. *)
Fixpoint stamped (E : env) (t : nat) (messages : list string)
  : list log_entry :=
  match messages with
  | [] => []
  | m :: rest => mkLog (Date.iso_string (now E t)) m :: stamped E (S t) rest
  end.

(** [addLog] called on each of [messages] in turn. *)
Definition addLog_all (E : env) (messages : list string) (w : world) : world :=
  fold_left (fun w m => fst (addLog E m w)) messages w.

Definition log_capacity : nat := 50.

(** ** The manual test endpoint *)

(** [Date.now()]. *)
Definition Date_now (E : env) : M Z :=
  fun w => (ticked w, Ok (now E (ticks w))).

(** A record as [res.json] serialises it. *)
Definition json_of_payment_data (pd : payment_data) : jsval :=
  JObj [("payment_id", payment_id pd);
        ("customer_email", customer_email pd);
        ("amount", amount pd);
        ("currency", currency pd);
        ("failure_code", failure_code pd);
        ("failure_message", failure_message pd);
        ("failed_at", failed_at pd)].

(** [POST /test]. *)
Definition post_test (E : env) : M response :=
  try_catch
    (addLog E "Manual test initiated" ;;;
     t <- Date_now E ;;
     failed <- now_iso E ;;
     let testPaymentData :=
       {| payment_id := JStr ("test_" ++ JS.string_of_Z t);
          customer_email := JStr "test@example.com";
          amount := JNum 2500;
          currency := JStr "usd";
          failure_code := JStr "card_declined";
          failure_message := JStr "Your card was declined.";
          failed_at := JStr failed |} in
     sendGmailAlert E testPaymentData ;;;
     _ <- addToAirtable E testPaymentData ;;
     addLog E "Manual test completed successfully" ;;;
     ret (Json 200
            (JObj [("success", JBool true);
                   ("message", JStr "Test completed successfully");
                   ("testData", json_of_payment_data testPaymentData)])))
    (fun error =>
       addLog E ("Manual test failed: " ++ err_message error) ;;;
       ret (Json 500
              (JObj [("success", JBool false);
                     ("error", JStr (err_message error))]))).

(** The ghost events added between two worlds. *)
Definition events_since (w w' : world) : list event :=
  skipn (List.length (trace w)) (trace w').

(** The line [console.log] prints for a log entry. *)
Definition console_line (e : log_entry) : string :=
  "[" ++ timestamp e ++ "] " ++ message e.

(** The sink holds no more than its capacity. *)
Definition sink_bounded (w : world) : Prop :=
  (List.length (logs w) <= 50)%nat.

(** ** The calendar of ECMAScript

    The day number of a date as the language standard defines it:
    [DayFromYear] is the day number of 1 January, the months have
    their usual lengths. *)

Module Calendar.

Definition leap (y : Z) : bool :=
  (y mod 4 =? 0) && (negb (y mod 100 =? 0) || (y mod 400 =? 0)).

Definition DayFromYear (y : Z) : Z :=
  365 * (y - 1970) + (y - 1969) / 4 - (y - 1901) / 100 + (y - 1601) / 400.

Definition days_in_month (y m : Z) : Z :=
  if m =? 2 then (if leap y then 29 else 28)
  else if existsb (Z.eqb m) [4; 6; 9; 11] then 30 else 31.

Definition days_before_month (y m : Z) : Z :=
  nth (Z.to_nat (m - 1))
      [0; 31; 59; 90; 120; 151; 181; 212; 243; 273; 304; 334] 0 +
  (if 2 <? m then (if leap y then 1 else 0) else 0).

Definition day_number (y m d : Z) : Z :=
  DayFromYear y + days_before_month y m + (d - 1).

End Calendar.

(** * Properties *)

(** Whatever [ToString] throws is the [TypeError] of the conversion. *)
Lemma JS_to_string_throws R :
  forall v e, JS.to_string R v = Throw e -> e = JS.not_primitive.
Proof.
  fix IH 1. intros v e. destruct v as [ | | b | z | | s | fields | items];
    cbn; try discriminate.
  - destruct b; discriminate.
  - destruct (JS.has_key "toString" fields); [|discriminate].
    intros H. now injection H.
  - revert e. revert items. fix IHr 1. intros items e.
    destruct items as [|x r]; [discriminate|].
    assert (Hx : forall e',
               match x with
               | JUndefined | JNull => Ok ""
               | _ => JS.to_string R x
               end = Throw e' -> e' = JS.not_primitive).
    { pose proof (IH x) as IHx. intros e' He'.
      destruct x; try discriminate He'; exact (IHx _ He'). }
    destruct (match x with
              | JUndefined | JNull => Ok ""
              | _ => JS.to_string R x
              end) as [sx|ex].
    + match goal with
      | |- context [match ?j with Ok _ => _ | Throw _ => _ end] =>
          destruct j as [sr|er] eqn:Hj
      end.
      * destruct r; discriminate.
      * pose proof (IHr r er Hj) as Her.
        destruct r; [discriminate|]. intros H. now injection H as <-.
    + intros H. injection H as <-. exact (Hx _ eq_refl).
Qed.

Lemma JS_to_string_throws_type R v e :
  JS.to_string R v = Throw e -> err_name e = "TypeError".
Proof. intros H. now rewrite (JS_to_string_throws R v e H). Qed.

Lemma JS_to_primitive_throws R v e :
  JS.to_primitive R v = Throw e -> err_name e = "TypeError".
Proof.
  unfold JS.to_primitive.
  destruct v; try discriminate;
    match goal with
    | |- match ?r with _ => _ end = _ -> _ => destruct r as [t|e0] eqn:Ht
    end; try discriminate; intros H; injection H as <-;
    apply (JS_to_string_throws_type _ _ _ Ht).
Qed.

Arguments Date.iso_string : simpl never.
Arguments JS.to_string : simpl never.
Arguments JS.number_to_string : simpl never.
Arguments JS.upper_string : simpl never.
Arguments String.append : simpl never.

Section LogSink.

Context {A : Type}.
Implicit Types (l h : list A).

Lemma slice_last_length n l :
  List.length (slice_last n l) = Nat.min n (List.length l).
Proof. unfold slice_last. rewrite length_skipn. lia. Qed.

Lemma slice_last_short n l :
  (List.length l <= n)%nat -> slice_last n l = l.
Proof.
  intros H. unfold slice_last.
  replace (List.length l - n)%nat with 0%nat by lia. reflexivity.
Qed.

(** Dropping the oldest entry of a full window after one more append
    gives the window of the longer history. *)
Lemma slice_last_snoc_full n h (x : A) :
  (n <= List.length h)%nat ->
  slice_last n (slice_last n h ++ [x]) = slice_last n (h ++ [x]).
Proof.
  intros H. unfold slice_last at 1 3.
  rewrite !length_app, slice_last_length. cbn [List.length].
  replace (Nat.min n (List.length h) + 1 - n)%nat with 1%nat by lia.
  replace (List.length h + 1 - n)%nat
    with (1 + (List.length h - n))%nat by lia.
  rewrite <- skipn_skipn. f_equal.
  unfold slice_last. rewrite skipn_app.
  replace (List.length h - n - List.length h)%nat with 0%nat by lia.
  reflexivity.
Qed.

Lemma slice_last_slice_last j n l :
  (j <= n)%nat -> slice_last j (slice_last n l) = slice_last j l.
Proof.
  intros H. unfold slice_last at 1. rewrite slice_last_length.
  unfold slice_last. rewrite skipn_skipn. f_equal. lia.
Qed.

Lemma slice_last_snoc k l (x : A) :
  slice_last (S k) (l ++ [x]) = (slice_last k l ++ [x])%list.
Proof.
  unfold slice_last. rewrite length_app. cbn [List.length].
  replace (List.length l + 1 - S k)%nat with (List.length l - k)%nat by lia.
  rewrite skipn_app.
  replace (List.length l - k - List.length l)%nat with 0%nat by lia.
  reflexivity.
Qed.

Lemma slice_last_incl n l (x : A) : In x (slice_last n l) -> In x l.
Proof.
  unfold slice_last. intros H.
  rewrite <- (firstn_skipn (List.length l - n) l).
  apply in_or_app. now right.
Qed.

Lemma skipn_length_app l t : skipn (List.length l) (l ++ t)%list = t.
Proof. induction l as [|x l IH]; [reflexivity | exact IH]. Qed.

End LogSink.

Lemma push_log_window (h : list log_entry) (e : log_entry) :
  push_log (slice_last 50 h) e = slice_last 50 (h ++ [e]).
Proof.
  unfold push_log.
  destruct (Nat.ltb 50 (List.length (slice_last 50 h ++ [e]))) eqn:Hfull.
  - apply Nat.ltb_lt in Hfull.
    rewrite length_app, slice_last_length in Hfull. cbn [List.length] in Hfull.
    apply slice_last_snoc_full. lia.
  - apply Nat.ltb_ge in Hfull.
    rewrite length_app, slice_last_length in Hfull. cbn [List.length] in Hfull.
    rewrite (slice_last_short 50 h) by lia.
    symmetry. apply slice_last_short. rewrite length_app. cbn. lia.
Qed.

Lemma push_log_bounded (l : list log_entry) (e : log_entry) :
  (List.length l <= 50)%nat -> (List.length (push_log l e) <= 50)%nat.
Proof.
  intros H. unfold push_log.
  destruct (Nat.ltb 50 (List.length (l ++ [e]))) eqn:Hfull.
  - rewrite slice_last_length. lia.
  - apply Nat.ltb_ge in Hfull. exact Hfull.
Qed.

Lemma push_log_slice (l : list log_entry) (e : log_entry) :
  push_log l e = slice_last 50 (l ++ [e]).
Proof.
  unfold push_log.
  destruct (Nat.ltb 50 (List.length (l ++ [e]))) eqn:Hfull; [reflexivity|].
  apply Nat.ltb_ge in Hfull. symmetry. now apply slice_last_short.
Qed.

(** An entry among the last [k < 50] stays in the sink over one more
    append. *)
Lemma push_log_recent k (l : list log_entry) (e x : log_entry) :
  (k < 50)%nat ->
  In x (slice_last k l) -> In x (slice_last (S k) (push_log l e)).
Proof.
  intros Hk Hx. rewrite push_log_slice, slice_last_slice_last by lia.
  rewrite slice_last_snoc. apply in_or_app. now left.
Qed.

Lemma push_log_newest (l : list log_entry) (e : log_entry) :
  In e (slice_last 1 (push_log l e)).
Proof.
  rewrite push_log_slice, slice_last_slice_last by lia.
  rewrite slice_last_snoc. apply in_or_app. right. now left.
Qed.

Lemma logged_recently_new E msg w :
  logged_recently 1 msg (logged E msg w).
Proof. eexists. cbn [logged logs]. apply push_log_newest. Qed.

Lemma logged_recently_keep E k msg msg' w :
  (k < 50)%nat ->
  logged_recently k msg w -> logged_recently (S k) msg (logged E msg' w).
Proof.
  intros Hk [ts Hin]. exists ts. cbn [logged logs]. now apply push_log_recent.
Qed.

Lemma logged_recently_traced k msg ev w :
  logged_recently k msg w -> logged_recently k msg (traced ev w).
Proof. trivial. Qed.

Lemma logged_recently_ticked k msg w :
  logged_recently k msg w -> logged_recently k msg (ticked w).
Proof. trivial. Qed.

Lemma logged_recently_in k msg w :
  logged_recently k msg w -> logged_in msg w.
Proof. intros [ts Hin]. exists ts. eapply slice_last_incl, Hin. Qed.

(** One append, as a world transformer. *)
Lemma addLog_run E msg w :
  addLog E msg w = (logged E msg w, Ok tt).
Proof. reflexivity. Qed.

Lemma addLog_all_cons E m rest w :
  addLog_all E (m :: rest) w = addLog_all E rest (logged E m w).
Proof. reflexivity. Qed.

(** The sink after a run of appends, from any world whose sink is the
    window of some history. *)
Lemma addLog_all_window E messages :
  forall w history,
    logs w = slice_last 50 history ->
    logs (addLog_all E messages w) =
      slice_last 50 (history ++ stamped E (ticks w) messages) /\
    ticks (addLog_all E messages w) = (ticks w + List.length messages)%nat.
Proof.
  induction messages as [|m rest IH]; intros w history Hw.
  - cbn. rewrite app_nil_r, Nat.add_0_r. now split.
  - rewrite addLog_all_cons.
    destruct (IH (logged E m w)
                 (history ++ [mkLog (Date.iso_string (now E (ticks w))) m])%list)
      as [Hl Ht].
    + cbn [logged logs]. rewrite Hw. apply push_log_window.
    + rewrite Hl, Ht. cbn [logged ticks stamped List.length].
      rewrite <- app_assoc. split; [reflexivity | lia].
Qed.

(** C7: whatever the sequence of appends, starting from the empty sink
    of a fresh process, the sink holds at most 50 entries after the
    last append (hence after each one, every prefix being a sequence
    too), and they are exactly the 50 most recent entries appended, in
    order: the older ones have been evicted. *)
Theorem log_sink_holds_newest_50 (E : env) (messages : list string) :
  (List.length (logs (addLog_all E messages initial_world)) <= log_capacity)%nat /\
  logs (addLog_all E messages initial_world) =
    slice_last log_capacity (stamped E 0 messages).
Proof.
  destruct (addLog_all_window E messages initial_world [] eq_refl) as [Hl _].
  cbn [app ticks initial_world] in Hl. unfold log_capacity.
  rewrite Hl. split; [|reflexivity].
  rewrite slice_last_length. lia.
Qed.

(** X1: [GET /logs] after a run of appends answers with the 20 newest
    entries and, as total, the number of entries held, never more than
    50. *)
Lemma get_logs_after_appends (E : env) (messages : list string) :
  get_logs (addLog_all E messages initial_world) =
    (slice_last 20 (stamped E 0 messages),
     Nat.min 50 (List.length messages)).
Proof.
  destruct (addLog_all_window E messages initial_world [] eq_refl) as [Hl _].
  cbn [app ticks initial_world] in Hl. unfold get_logs. rewrite Hl.
  rewrite slice_last_slice_last by lia. rewrite slice_last_length.
  f_equal. f_equal. clear Hl. generalize 0%nat.
  induction messages as [|m rest IH]; intros t; cbn; [reflexivity|].
  now rewrite IH.
Qed.

(** ** The notification channel *)

Ltac unfold_monad :=
  cbv beta iota zeta delta
    [bind try_catch lift ret throw call rbind
     gmail_users_messages_send table_create_call now_iso] in *.

Ltac split_rbind :=
  repeat match goal with
    | |- context [rbind ?r _] =>
        let H := fresh "Hpart" in
        destruct r eqn:H; cbn [rbind]; try discriminate
    end.

(** What a message that could be built tells about its record. *)
Lemma alert_message_inv E pd m :
  alert_message E pd = Ok m ->
  JS.to_string (engine E)
    (JS.or (customer_email pd) (JStr "Unknown Customer")) =
    Ok (subject_customer m) /\
  JS.to_string (engine E) (payment_id pd) = Ok (body_payment_id m) /\
  JS.to_string (engine E)
    (JS.or (customer_email pd) (JStr "Not available")) =
    Ok (body_customer m) /\
  div_100 (engine E) (amount pd) = Ok (body_amount m) /\
  JS.toUpperCase (engine E) "paymentData.currency" (currency pd) =
    Ok (body_currency m) /\
  JS.to_string (engine E)
    (JS.or (failure_code pd) (JStr "Not specified")) =
    Ok (body_failure_code m) /\
  JS.to_string (engine E)
    (JS.or (failure_message pd) (JStr "Not specified")) =
    Ok (body_failure_message m) /\
  JS.to_string (engine E) (failed_at pd) = Ok (body_date m) /\
  JS.to_string (engine E)
    (JS.or (env_var (ALERT_EMAIL E)) (JStr "admin@example.com")) =
    Ok (mail_to m).
Proof.
  unfold alert_message. cbv zeta. split_rbind.
  intros H. injection H as <-. cbn. repeat split.
Qed.

(** The three ways [sendGmailAlert] can go: the message cannot be
    built, the send succeeds, the send throws.  It returns normally in
    all three. *)
Lemma sendGmailAlert_run E pd w :
  let w1 := traced (Enter fn_sendGmailAlert) w in
  sendGmailAlert E pd w =
    match alert_message E pd with
    | Throw e =>
        (traced (Leave fn_sendGmailAlert)
           (logged E ("Error sending Gmail alert: " ++ err_message e) w1),
         Ok tt)
    | Ok m =>
        let w2 := traced (GmailSend m (gmail_send E w1 m)) w1 in
        match gmail_send E w1 m with
        | Ok _ =>
            (traced (Leave fn_sendGmailAlert)
               (logged E ("Gmail alert sent for payment " ++
                          body_payment_id m) w2),
             Ok tt)
        | Throw e =>
            (traced (Leave fn_sendGmailAlert)
               (logged E ("Error sending Gmail alert: " ++ err_message e) w2),
             Ok tt)
        end
    end.
Proof.
  unfold sendGmailAlert. unfold_monad.
  destruct (alert_message E pd) as [m|e] eqn:Hm; [|reflexivity].
  destruct (alert_message_inv E pd m Hm) as (_ & Hid & _).
  rewrite Hid.
  destruct (gmail_send E _ m) as [[]|e]; reflexivity.
Qed.

(** C9: [sendGmailAlert] returns normally for every record, world and
    behaviour of the Gmail client, and when the send throws the only
    effect on the world is one appended log entry carrying the error's
    message (next to the ghost trace of the call). *)
Theorem sendGmailAlert_never_throws (E : env) (pd : payment_data) (w : world) :
  snd (sendGmailAlert E pd w) = Ok tt /\
  (forall m e,
      alert_message E pd = Ok m ->
      gmail_send E (traced (Enter fn_sendGmailAlert) w) m = Throw e ->
      fst (sendGmailAlert E pd w) =
        traced (Leave fn_sendGmailAlert)
          (logged E ("Error sending Gmail alert: " ++ err_message e)
             (traced (GmailSend m (Throw e))
                (traced (Enter fn_sendGmailAlert) w)))).
Proof.
  rewrite sendGmailAlert_run. cbv zeta. split.
  - destruct (alert_message E pd) as [m|e]; [|reflexivity].
    destruct (gmail_send E _ m) as [[]|e]; reflexivity.
  - intros m e Hm He. rewrite Hm, He. reflexivity.
Qed.

(** ** The record store channel *)

Lemma or_truthy a s :
  s <> "" -> JS.truthy (JS.or a (JStr s)) = true.
Proof.
  intros Hs. unfold JS.or. destruct (JS.truthy a) eqn:Ha; [exact Ha|].
  cbn. now apply negb_true_iff, String.eqb_neq.
Qed.

Lemma or_absent a b :
  absent_or_empty a = true -> JS.or a b = b.
Proof.
  destruct a; cbn; try discriminate; try reflexivity.
  intros H. unfold JS.or. cbn. now rewrite H.
Qed.

Lemma or_present a b :
  JS.truthy a = true -> JS.or a b = a.
Proof. intros H. unfold JS.or. now rewrite H. Qed.


Lemma row_values_inv R pd q cur :
  row_values R pd = Ok (q, cur) ->
  q = mkQuotient (amount pd) 100 /\
  (exists p, JS.to_primitive R (amount pd) = Ok p) /\
  exists c, currency pd = JStr c /\ cur = JS.upper_string R c.
Proof.
  unfold row_values, div_100.
  destruct (JS.to_primitive R (amount pd)) as [p|e]; cbn [rbind];
    [|discriminate].
  destruct (currency pd); cbn [JS.toUpperCase rbind]; try discriminate.
  intros H. injection H as <- <-.
  split; [reflexivity|]. split; [now exists p|].
  eexists. split; reflexivity.
Qed.

Lemma row_values_ok R pd c p :
  currency pd = JStr c ->
  JS.to_primitive R (amount pd) = Ok p ->
  row_values R pd = Ok (mkQuotient (amount pd) 100, JS.upper_string R c).
Proof.
  intros Hc Hp. unfold row_values, div_100. now rewrite Hp, Hc.
Qed.

Lemma row_values_throws R pd e :
  row_values R pd = Throw e -> err_name e = "TypeError".
Proof.
  unfold row_values, div_100.
  destruct (JS.to_primitive R (amount pd)) as [p|e0] eqn:Hp; cbn [rbind].
  - destruct (currency pd); cbn [JS.toUpperCase rbind]; try discriminate;
      intros H; now injection H as <-.
  - intros H. injection H as <-. apply (JS_to_primitive_throws _ _ _ Hp).
Qed.

(** The row and the run of [addToAirtable] when the amount converts
    and the currency is a string: the row is built and handed to the
    store exactly once, whatever the store answers. *)
Lemma addToAirtable_row E pd w q cur :
  row_values (engine E) pd = Ok (q, cur) ->
  let w1 := ticked (traced (Enter fn_addToAirtable) w) in
  let row :=
    {| Payment_ID := payment_id pd;
       Customer_Email := JS.or (customer_email pd) (JStr "Unknown");
       Amount := q;
       Currency := JStr cur;
       Failure_Code := JS.or (failure_code pd) (JStr "Unknown");
       Failure_Message := JS.or (failure_message pd) (JStr "Unknown");
       Failed_At := failed_at pd;
       Status := JStr "New";
       Created_At := JStr (Date.iso_string (now E (ticks w))) |} in
  let w2 := traced (TableCreate row (table_create E w1 row)) w1 in
  addToAirtable E pd w =
    match store_answer (engine E) (table_create E w1 row) with
    | Ok (record0, text) =>
        (traced (Leave fn_addToAirtable)
           (logged E ("Added failed payment record to Airtable: " ++ text) w2),
         Ok record0)
    | Throw e =>
        (traced (Leave fn_addToAirtable)
           (logged E ("Error adding to Airtable: " ++ err_message e) w2),
         Throw e)
    end.
Proof.
  intros Hv. unfold addToAirtable, airtable_row, store_answer.
  unfold row_values in Hv.
  destruct (div_100 (engine E) (amount pd)) as [q0|e]; cbn [rbind] in Hv;
    [|discriminate Hv].
  destruct (JS.toUpperCase (engine E) _ (currency pd)) as [cur0|e];
    cbn [rbind] in Hv; [|discriminate Hv].
  injection Hv as -> ->.
  unfold_monad. cbn [ticks traced].
  destruct (table_create E _ _) as [record|e]; [|reflexivity].
  destruct (JS.get0 record) as [record0|e]; [|reflexivity].
  destruct (JS.get record0 "id") as [id|e]; [|reflexivity].
  destruct (JS.to_string (engine E) id) as [text|e]; reflexivity.
Qed.

(** Without a convertible amount or without a currency string no row is
    built and the store is not called. *)
Lemma addToAirtable_no_row E pd w e :
  row_values (engine E) pd = Throw e ->
  addToAirtable E pd w =
    (traced (Leave fn_addToAirtable)
       (logged E ("Error adding to Airtable: " ++ err_message e)
          (traced (Enter fn_addToAirtable) w)),
     Throw e).
Proof.
  intros Hv. unfold addToAirtable, airtable_row. unfold row_values in Hv.
  unfold_monad.
  destruct (div_100 (engine E) (amount pd)) as [q0|e0]; cbn [rbind] in Hv.
  - destruct (JS.toUpperCase (engine E) _ (currency pd)) as [cur0|e0];
      cbn [rbind] in Hv; [discriminate Hv|].
    injection Hv as ->. reflexivity.
  - injection Hv as ->. reflexivity.
Qed.

(** The ghost events of one call of [addToAirtable]. *)
Lemma addToAirtable_events E pd w :
  match row_values (engine E) pd with
  | Ok (q, cur) =>
      exists row,
        trace (fst (addToAirtable E pd w)) =
          (trace w ++
           [Enter fn_addToAirtable;
            TableCreate row
              (table_create E (ticked (traced (Enter fn_addToAirtable) w)) row);
            Leave fn_addToAirtable])%list /\
        row =
          {| Payment_ID := payment_id pd;
             Customer_Email := JS.or (customer_email pd) (JStr "Unknown");
             Amount := q;
             Currency := JStr cur;
             Failure_Code := JS.or (failure_code pd) (JStr "Unknown");
             Failure_Message := JS.or (failure_message pd) (JStr "Unknown");
             Failed_At := failed_at pd;
             Status := JStr "New";
             Created_At := JStr (Date.iso_string (now E (ticks w))) |}
  | Throw _ =>
      trace (fst (addToAirtable E pd w)) =
        (trace w ++ [Enter fn_addToAirtable; Leave fn_addToAirtable])%list
  end.
Proof.
  destruct (row_values (engine E) pd) as [[q cur]|e] eqn:Hv.
  - eexists. split; [|reflexivity].
    rewrite (addToAirtable_row E pd w q cur Hv). cbv zeta.
    destruct (store_answer _ _) as [[record0 text]|e];
      cbn [fst trace traced logged ticked]; now rewrite <- !app_assoc.
  - rewrite (addToAirtable_no_row E pd w e Hv).
    cbn [fst trace traced logged]. now rewrite <- !app_assoc.
Qed.


(** ** The normalizer *)

Example iso_string_epoch :
  Date.iso_string 0 = "1970-01-01T00:00:00.000Z".
Proof. reflexivity. Qed.

Example iso_string_leap_day :
  Date.iso_string 1709251199999 = "2024-02-29T23:59:59.999Z".
Proof. reflexivity. Qed.

Example iso_string_century_leap_day :
  Date.iso_string 951782400000 = "2000-02-29T00:00:00.000Z".
Proof. reflexivity. Qed.

Example iso_string_latest :
  Date.iso_string Date.max_time = "+275760-09-13T00:00:00.000Z".
Proof. reflexivity. Qed.

Example iso_string_before_epoch :
  Date.iso_string (-1) = "1969-12-31T23:59:59.999Z".
Proof. reflexivity. Qed.

Lemma envelope_created E type created object event :
  envelope type created object event ->
  event_created_iso E event = Ok (JStr (Date.iso_string (created * 1000))).
Proof.
  intros (_ & _ & Hc & Hv). unfold event_created_iso.
  rewrite Hc. unfold times_1000.
  cbn [rbind JS.to_primitive Date.toISOString].
  now rewrite Hv.
Qed.

(** The record of a well-formed envelope, tag by tag. *)
Lemma paymentData_of_intent E created object event :
  envelope "payment_intent.payment_failed" created object event ->
  paymentData_of E event =
    Ok {| payment_id := JS.assoc "id" object;
          customer_email :=
            JS.or (JS.assoc "receipt_email" object) (JStr "Unknown");
          amount := JS.assoc "amount" object;
          currency := JS.assoc "currency" object;
          failure_code :=
            JS.get_opt (JS.assoc "last_payment_error" object) "code";
          failure_message :=
            JS.get_opt (JS.assoc "last_payment_error" object) "message";
          failed_at := JStr (Date.iso_string (created * 1000)) |}.
Proof.
  intros Henv. pose proof (envelope_created E _ _ _ _ Henv) as Hiso.
  destruct Henv as (Ht & Ho & _ & _).
  unfold paymentData_of. rewrite Ht, Ho, Hiso. reflexivity.
Qed.

Lemma paymentData_of_invoice E created object event :
  envelope "invoice.payment_failed" created object event ->
  paymentData_of E event =
    Ok {| payment_id := JS.assoc "id" object;
          customer_email :=
            JS.or (JS.assoc "customer_email" object) (JStr "Unknown");
          amount := JS.assoc "amount_due" object;
          currency := JS.assoc "currency" object;
          failure_code := JStr "invoice_payment_failed";
          failure_message := JStr "Invoice payment failed";
          failed_at := JStr (Date.iso_string (created * 1000)) |}.
Proof.
  intros Henv. pose proof (envelope_created E _ _ _ _ Henv) as Hiso.
  destruct Henv as (Ht & Ho & _ & _).
  unfold paymentData_of. rewrite Ht, Ho, Hiso. reflexivity.
Qed.

Lemma paymentData_of_charge E created object event :
  envelope "charge.failed" created object event ->
  paymentData_of E event =
    Ok {| payment_id := JS.assoc "id" object;
          customer_email :=
            JS.or (JS.assoc "receipt_email" object)
              (JS.or (JS.get_opt (JS.assoc "billing_details" object) "email")
                     (JStr "Unknown"));
          amount := JS.assoc "amount" object;
          currency := JS.assoc "currency" object;
          failure_code := JS.assoc "failure_code" object;
          failure_message := JS.assoc "failure_message" object;
          failed_at := JStr (Date.iso_string (created * 1000)) |}.
Proof.
  intros Henv. pose proof (envelope_created E _ _ _ _ Henv) as Hiso.
  destruct Henv as (Ht & Ho & _ & _).
  unfold paymentData_of. rewrite Ht, Ho, Hiso. reflexivity.
Qed.

Lemma recognized_cases type :
  In type recognized ->
  type = "payment_intent.payment_failed" \/
  type = "invoice.payment_failed" \/
  type = "charge.failed".
Proof. cbn. intuition. Qed.

(** C3: for an envelope with one of the three recognized tags, the
    normalizer produces a record whose amount and currency are the
    payload's [amount] ([amount_due] for an invoice) and [currency],
    unchanged, and whose [failed_at] is the ISO-8601 text of the
    envelope's creation time, taken as epoch seconds. *)
Theorem normalizer_copies_amount_currency_time
    (E : env) (type : string) (created : Z)
    (object : list (string * jsval)) (event : jsval) :
  envelope type created object event ->
  In type recognized ->
  exists pd,
    paymentData_of E event = Ok pd /\
    amount pd = JS.assoc (amount_field type) object /\
    currency pd = JS.assoc "currency" object /\
    failed_at pd = JStr (Date.iso_string (created * 1000)).
Proof.
  intros Henv Hin.
  destruct (recognized_cases _ Hin) as [-> | [-> | ->]]; eexists.
  - rewrite (paymentData_of_intent E _ _ _ Henv). repeat split.
  - rewrite (paymentData_of_invoice E _ _ _ Henv). repeat split.
  - rewrite (paymentData_of_charge E _ _ _ Henv). repeat split.
Qed.

Lemma first_present_two a b sentinel :
  first_present [a; b] sentinel = JS.or a (JS.or b sentinel).
Proof.
  unfold first_present, JS.or. cbn [find].
  destruct (JS.truthy a); [reflexivity|]. now destruct (JS.truthy b).
Qed.

(** C8: for a charge-failed envelope the record's [customer_email] is
    the first present of the charge's receipt e-mail and its
    billing-details e-mail, in that order, and ["Unknown"] when neither
    is present. *)
Theorem charge_email_ordered_fallback
    (E : env) (created : Z) (charge : list (string * jsval)) (event : jsval) :
  envelope "charge.failed" created charge event ->
  exists pd,
    paymentData_of E event = Ok pd /\
    customer_email pd =
      first_present
        [JS.assoc "receipt_email" charge;
         JS.get_opt (JS.assoc "billing_details" charge) "email"]
        (JStr "Unknown") /\
    (JS.truthy (JS.assoc "receipt_email" charge) = true ->
       customer_email pd = JS.assoc "receipt_email" charge) /\
    (JS.truthy (JS.assoc "receipt_email" charge) = false ->
     JS.truthy (JS.get_opt (JS.assoc "billing_details" charge) "email") = true ->
       customer_email pd =
         JS.get_opt (JS.assoc "billing_details" charge) "email") /\
    (JS.truthy (JS.assoc "receipt_email" charge) = false ->
     JS.truthy (JS.get_opt (JS.assoc "billing_details" charge) "email") = false ->
       customer_email pd = JStr "Unknown").
Proof.
  intros Henv. eexists. split; [apply (paymentData_of_charge E _ _ _ Henv)|].
  cbn [customer_email]. split; [now rewrite first_present_two|].
  unfold JS.or. repeat split.
  - now intros ->.
  - now intros -> ->.
  - now intros -> ->.
Qed.

(** C2, as the code has it: for an envelope with a recognized tag the
    normalizer produces a record whose [customer_email] and [failed_at]
    always hold a value; [payment_id], [amount] and [currency] are the
    payload's fields; [failure_code] and [failure_message] are the two
    constants for an invoice and otherwise the payload's fields, so for
    a payment intent without a last-error object they are
    [undefined]. *)
Theorem normalizer_record_fields
    (E : env) (type : string) (created : Z)
    (object : list (string * jsval)) (event : jsval) :
  envelope type created object event ->
  In type recognized ->
  exists pd,
    paymentData_of E event = Ok pd /\
    JS.truthy (customer_email pd) = true /\
    JS.is_defined (failed_at pd) = true /\
    payment_id pd = JS.assoc "id" object /\
    amount pd = JS.assoc (amount_field type) object /\
    currency pd = JS.assoc "currency" object /\
    (type = "invoice.payment_failed" ->
       failure_code pd = JStr "invoice_payment_failed" /\
       failure_message pd = JStr "Invoice payment failed") /\
    (type = "charge.failed" ->
       failure_code pd = JS.assoc "failure_code" object /\
       failure_message pd = JS.assoc "failure_message" object) /\
    (type = "payment_intent.payment_failed" ->
       failure_code pd =
         JS.get_opt (JS.assoc "last_payment_error" object) "code" /\
       failure_message pd =
         JS.get_opt (JS.assoc "last_payment_error" object) "message") /\
    (type = "payment_intent.payment_failed" ->
     JS.assoc "last_payment_error" object = JUndefined ->
       failure_code pd = JUndefined /\ failure_message pd = JUndefined).
Proof.
  intros Henv Hin.
  destruct (recognized_cases _ Hin) as [-> | [-> | ->]]; eexists;
    (split;
     [first [apply (paymentData_of_intent E _ _ _ Henv)
            |apply (paymentData_of_invoice E _ _ _ Henv)
            |apply (paymentData_of_charge E _ _ _ Henv)]|]);
    cbn [customer_email failed_at payment_id amount currency failure_code
         failure_message JS.is_defined].
  - split; [apply or_truthy; discriminate|].
    repeat split; try discriminate; match goal with H : _ = JUndefined |- _ => now rewrite H end.
  - split; [apply or_truthy; discriminate|].
    repeat split; discriminate.
  - split.
    { unfold JS.or at 1.
      destruct (JS.truthy (JS.assoc "receipt_email" object)) eqn:Hr;
        [exact Hr | apply or_truthy; discriminate]. }
    repeat split; discriminate.
Qed.

(** C2 does not hold as stated.  A payment intent that failed without
    a last-error object: the envelope is well formed and recognized,
    and the record's [failure_code] and [failure_message] are
    [undefined]. *)
Lemma intent_without_last_error_is_not_fully_defined :
  envelope "payment_intent.payment_failed" 1700000000
           Sample.intent Sample.intent_failed /\
  In "payment_intent.payment_failed" recognized /\
  exists pd,
    paymentData_of Sample.gmail_down Sample.intent_failed = Ok pd /\
    failure_code pd = JUndefined /\
    failure_message pd = JUndefined /\
    record_defined pd = false.
Proof.
  split; [repeat split|]. split; [cbn; auto|].
  eexists. split; [reflexivity|]. repeat split.
Qed.

(** ** One delivery *)

Lemma sendGmailAlert_returns E pd w :
  snd (sendGmailAlert E pd w) = Ok tt.
Proof.
  rewrite sendGmailAlert_run. cbv zeta.
  destruct (alert_message E pd) as [m|e]; [|reflexivity].
  destruct (gmail_send E _ m) as [[]|e]; reflexivity.
Qed.

Lemma alert_message_row_values E pd m :
  alert_message E pd = Ok m ->
  row_values (engine E) pd = Ok (body_amount m, body_currency m).
Proof.
  intros Hm. destruct (alert_message_inv E pd m Hm)
    as (_ & _ & _ & Ham & Hcur & _).
  unfold row_values. now rewrite Ham, Hcur.
Qed.

Lemma to_string_str R s : JS.to_string R (JStr s) = Ok s.
Proof. reflexivity. Qed.

Lemma record_of_throws E event e :
  paymentData_of E event = Throw e -> record_of E event = Throw e.
Proof. intros H. unfold record_of. now rewrite H. Qed.

Lemma record_of_inv E event pd id :
  record_of E event = Ok (pd, id) ->
  paymentData_of E event = Ok pd /\
  JS.to_string (engine E) (payment_id pd) = Ok id.
Proof.
  unfold record_of.
  destruct (paymentData_of E event) as [pd0|e]; cbn [rbind]; [|discriminate].
  destruct (JS.to_string (engine E) (payment_id pd0)) as [id0|e] eqn:Hid;
    cbn [rbind]; [|discriminate].
  intros H. injection H as <- <-. now split.
Qed.

Lemma record_of_ok E event pd id :
  paymentData_of E event = Ok pd ->
  JS.to_string (engine E) (payment_id pd) = Ok id ->
  record_of E event = Ok (pd, id).
Proof. intros H1 H2. unfold record_of. now rewrite H1; cbn [rbind]; rewrite H2. Qed.

(** The run of [processFailedPayment]: without a record whose
    identifier has a text it logs and rethrows; with one, it logs, runs
    the two channels in turn and ends as the store channel ends. *)
Lemma processFailedPayment_run E event w :
  let w1 := traced (Enter fn_processFailedPayment) w in
  processFailedPayment E event w =
    match record_of E event with
    | Throw e =>
        (traced (Leave fn_processFailedPayment)
           (logged E ("Error processing failed payment: " ++ err_message e) w1),
         Throw e)
    | Ok (pd, id) =>
        let w2 := logged E ("Processing failed payment: " ++ id) w1 in
        let w3 := fst (sendGmailAlert E pd w2) in
        match addToAirtable E pd w3 with
        | (w4, Ok _) =>
            (traced (Leave fn_processFailedPayment)
               (logged E ("Successfully processed failed payment: " ++ id) w4),
             Ok tt)
        | (w4, Throw e) =>
            (traced (Leave fn_processFailedPayment)
               (logged E ("Error processing failed payment: " ++
                          err_message e) w4),
             Throw e)
        end
    end.
Proof.
  cbv zeta. unfold processFailedPayment, record_of.
  cbv beta iota zeta delta [bind try_catch lift call].
  destruct (paymentData_of E event) as [pd|e]; cbn [rbind]; [|reflexivity].
  destruct (JS.to_string (engine E) (payment_id pd)) as [id|e] eqn:Hid;
    cbn [rbind]; [|reflexivity].
  rewrite addLog_run.
  pose proof (sendGmailAlert_returns E pd
    (logged E ("Processing failed payment: " ++ id)
       (traced (Enter fn_processFailedPayment) w))) as Hret.
  destruct (sendGmailAlert E pd _) as [w3 r3]. cbn [snd fst] in *. subst r3.
  destruct (addToAirtable E pd w3) as [w4 [record|e]]; reflexivity.
Qed.

Lemma includes_string type :
  JS.includes recognized type = true -> exists t, type = JStr t.
Proof. destruct type; cbn; try discriminate. intros _. now eexists. Qed.

Lemma post_webhook_stripe_run E body sig w :
  post_webhook_stripe E body sig w =
    match constructEvent E w body sig (STRIPE_WEBHOOK_SECRET E) with
    | Throw err =>
        (logged E ("Webhook signature verification failed: " ++
                   err_message err) w,
         Ok (Send 400 ("Webhook Error: " ++ err_message err)))
    | Ok event =>
        match JS.get event "type" with
        | Throw e => (w, Throw e)
        | Ok type =>
            if JS.includes recognized type then
              match processFailedPayment E event w with
              | (w1, Ok _) =>
                  match JS.to_string (engine E) type with
                  | Ok text =>
                      (logged E ("Webhook processed successfully: " ++
                                 text) w1,
                       Ok (Json 200 received_true))
                  | Throw error =>
                      (logged E ("Error processing webhook: " ++
                                 err_message error) w1,
                       Ok (Send 500 "Internal Server Error"))
                  end
              | (w1, Throw error) =>
                  (logged E ("Error processing webhook: " ++
                             err_message error) w1,
                   Ok (Send 500 "Internal Server Error"))
              end
            else
              match JS.to_string (engine E) type with
              | Ok text =>
                  (logged E ("Unhandled event type: " ++ text) w,
                   Ok (Json 200 received_true))
              | Throw e => (w, Throw e)
              end
        end
    end.
Proof.
  unfold post_webhook_stripe, stripe_webhooks_constructEvent.
  cbv beta iota zeta delta [bind try_catch lift ret].
  destruct (constructEvent E w body sig _) as [event|err]; [|reflexivity].
  destruct (JS.get event "type") as [type|e]; [|reflexivity].
  destruct (JS.includes recognized type).
  - destruct (processFailedPayment E event w) as [w1 [[]|error]];
      [|reflexivity].
    destruct (JS.to_string (engine E) type) as [text|error]; reflexivity.
  - destruct (JS.to_string (engine E) type) as [text|e]; reflexivity.
Qed.

(** The run of a validly signed delivery with a recognized type, which
    is then a string. *)
Lemma post_webhook_stripe_recognized E body sig w event type :
  constructEvent E w body sig (STRIPE_WEBHOOK_SECRET E) = Ok event ->
  JS.get event "type" = Ok type ->
  JS.includes recognized type = true ->
  exists t,
    type = JStr t /\
    post_webhook_stripe E body sig w =
      match processFailedPayment E event w with
      | (w1, Ok _) =>
          (logged E ("Webhook processed successfully: " ++ t) w1,
           Ok (Json 200 received_true))
      | (w1, Throw error) =>
          (logged E ("Error processing webhook: " ++ err_message error) w1,
           Ok (Send 500 "Internal Server Error"))
      end.
Proof.
  intros Hsig Htype Hrec.
  destruct (includes_string type Hrec) as [t ->]. exists t.
  split; [reflexivity|].
  rewrite post_webhook_stripe_run, Hsig, Htype, Hrec, to_string_str.
  reflexivity.
Qed.

(** C4: when the signature check throws, the dispatcher answers 400
    with the text of the verification error and the world differs from
    the one before only by one log entry carrying that text: the ghost
    trace is untouched, so neither the normalizer nor a channel was
    entered and no collaborator was called. *)
Theorem invalid_signature_is_rejected
    (E : env) (body sig : jsval) (w : world) (err : error) :
  constructEvent E w body sig (STRIPE_WEBHOOK_SECRET E) = Throw err ->
  post_webhook_stripe E body sig w =
    (logged E ("Webhook signature verification failed: " ++ err_message err) w,
     Ok (Send 400 ("Webhook Error: " ++ err_message err))) /\
  trace (fst (post_webhook_stripe E body sig w)) = trace w /\
  delivery_trace E body sig w = [].
Proof.
  intros Hsig. unfold delivery_trace.
  rewrite post_webhook_stripe_run, Hsig. cbn [fst logged trace].
  repeat split. apply skipn_all.
Qed.

(** C5: for a validly signed delivery whose event type is none of the
    three recognized tags and has a text (as every string has: itself),
    the dispatcher answers 200 with [{received: true}] and the world
    differs from the one before only by one log entry, "Unhandled
    event type: " followed by that text: the ghost trace is untouched,
    so neither the normalizer nor a channel was entered. *)
Theorem unrecognized_event_is_acknowledged
    (E : env) (body sig : jsval) (w : world) (event type : jsval)
    (text : string) :
  constructEvent E w body sig (STRIPE_WEBHOOK_SECRET E) = Ok event ->
  JS.get event "type" = Ok type ->
  JS.includes recognized type = false ->
  JS.to_string (engine E) type = Ok text ->
  post_webhook_stripe E body sig w =
    (logged E ("Unhandled event type: " ++ text) w,
     Ok (Json 200 received_true)) /\
  trace (fst (post_webhook_stripe E body sig w)) = trace w /\
  delivery_trace E body sig w = [].
Proof.
  intros Hsig Htype Hrec Htext. unfold delivery_trace.
  rewrite post_webhook_stripe_run, Hsig, Htype, Hrec, Htext.
  cbn [fst logged trace].
  repeat split. apply skipn_all.
Qed.

(** ** The order of the two channels *)

Lemma sendGmailAlert_trace E pd w :
  exists a,
    trace (fst (sendGmailAlert E pd w)) =
      (trace w ++ Enter fn_sendGmailAlert :: a ++ [Leave fn_sendGmailAlert])%list /\
    (a = [] \/ exists m r, a = [GmailSend m r]).
Proof.
  rewrite sendGmailAlert_run. cbv zeta.
  destruct (alert_message E pd) as [m|e].
  - exists [GmailSend m (gmail_send E (traced (Enter fn_sendGmailAlert) w) m)].
    split; [|right; eauto].
    destruct (gmail_send E _ m) as [[]|e];
      cbn [fst trace traced logged]; now rewrite <- !app_assoc.
  - exists []. split; [|now left].
    cbn [fst trace traced logged]. now rewrite <- !app_assoc.
Qed.

Lemma toUpperCase_string R src v s :
  JS.toUpperCase R src v = Ok s -> exists c, v = JStr c.
Proof. destruct v; cbn; try discriminate. intros _. now eexists. Qed.

Lemma addToAirtable_trace E pd w :
  exists b,
    trace (fst (addToAirtable E pd w)) =
      (trace w ++ Enter fn_addToAirtable :: b ++ [Leave fn_addToAirtable])%list /\
    (b = [] \/ exists row outcome, b = [TableCreate row outcome]).
Proof.
  pose proof (addToAirtable_events E pd w) as Hev.
  destruct (row_values (engine E) pd) as [[q cur]|e].
  - destruct Hev as (row & Ht & _).
    eexists [TableCreate _ _]. split; [exact Ht | right; eauto].
  - exists []. split; [exact Hev | now left].
Qed.

Lemma processFailedPayment_trace E event w :
  match record_of E event with
  | Ok (pd, id) =>
      exists a b,
        trace (fst (processFailedPayment E event w)) =
          (trace w ++
           [Enter fn_processFailedPayment; Enter fn_sendGmailAlert] ++ a ++
           [Leave fn_sendGmailAlert; Enter fn_addToAirtable] ++ b ++
           [Leave fn_addToAirtable; Leave fn_processFailedPayment])%list /\
        (a = [] \/ exists m r, a = [GmailSend m r]) /\
        (b = [] \/ exists row outcome, b = [TableCreate row outcome])
  | Throw e =>
      trace (fst (processFailedPayment E event w)) =
        (trace w ++ [Enter fn_processFailedPayment;
                     Leave fn_processFailedPayment])%list
  end.
Proof.
  rewrite processFailedPayment_run. cbv zeta.
  destruct (record_of E event) as [[pd id]|e].
  - set (w2 := logged E _ _).
    destruct (sendGmailAlert_trace E pd w2) as (a & Ha & Hcase_a).
    destruct (addToAirtable_trace E pd (fst (sendGmailAlert E pd w2)))
      as (b & Hb & Hcase_b).
    exists a, b. split; [|now split].
    destruct (addToAirtable E pd _) as [w4 [record|e]];
      cbn [fst trace traced logged] in *; rewrite Hb, Ha;
      subst w2; cbn [fst trace traced logged];
      rewrite <- !app_assoc; cbn [app]; rewrite <- !app_assoc; reflexivity.
  - cbn [fst trace traced logged]. now rewrite <- !app_assoc.
Qed.

Lemma post_webhook_stripe_trace E body sig w event type :
  constructEvent E w body sig (STRIPE_WEBHOOK_SECRET E) = Ok event ->
  JS.get event "type" = Ok type ->
  JS.includes recognized type = true ->
  trace (fst (post_webhook_stripe E body sig w)) =
  trace (fst (processFailedPayment E event w)).
Proof.
  intros Hsig Htype Hrec.
  destruct (post_webhook_stripe_recognized E body sig w event type
              Hsig Htype Hrec) as (t & _ & ->).
  destruct (processFailedPayment E event w) as [w1 [[]|e]]; reflexivity.
Qed.

(** The events of a delivery whose alert can be built: the send and the
    append are both made. *)
Lemma processFailedPayment_trace_built E event w pd m :
  paymentData_of E event = Ok pd ->
  alert_message E pd = Ok m ->
  exists sent row outcome,
    trace (fst (processFailedPayment E event w)) =
      (trace w ++
       [Enter fn_processFailedPayment; Enter fn_sendGmailAlert;
        GmailSend m sent; Leave fn_sendGmailAlert;
        Enter fn_addToAirtable; TableCreate row outcome;
        Leave fn_addToAirtable; Leave fn_processFailedPayment])%list.
Proof.
  intros Hpd Hm.
  destruct (alert_message_inv E pd m Hm) as (_ & Hid & _).
  rewrite processFailedPayment_run,
    (record_of_ok E event pd _ Hpd Hid). cbv zeta.
  rewrite sendGmailAlert_run, Hm. cbv zeta.
  destruct (gmail_send E _ m) as [[]|e1]; cbn [fst];
    match goal with
    | |- context [addToAirtable E pd ?w3] =>
        pose proof (addToAirtable_events E pd w3) as Hev
    end;
    rewrite (alert_message_row_values E pd m Hm) in Hev;
    destruct Hev as (row & Ht & _);
    do 3 eexists;
    (destruct (addToAirtable E pd _) as [w4 [record|e]];
     cbn [fst trace traced logged] in *; rewrite Ht;
     cbn [trace traced logged]; rewrite <- !app_assoc; reflexivity).
Qed.

Lemma to_string_primitive R v :
  is_primitive v = true -> exists s, JS.to_string R v = Ok s.
Proof.
  destruct v as [ | | [] | | | | | ]; cbn; try discriminate;
    intros _; eexists; reflexivity.
Qed.

Lemma to_string_or_primitive R v d :
  is_primitive v = true -> exists s, JS.to_string R (JS.or v (JStr d)) = Ok s.
Proof.
  intros Hv. unfold JS.or. destruct (JS.truthy v).
  - now apply to_string_primitive.
  - now eexists.
Qed.

Lemma to_primitive_primitive R v :
  is_primitive v = true -> JS.to_primitive R v = Ok v.
Proof. destruct v; cbn; try discriminate; reflexivity. Qed.

(** The alert of a plain record with a currency string can be built. *)
Lemma alert_message_plain E pd c :
  plain_record pd = true ->
  currency pd = JStr c ->
  exists m, alert_message E pd = Ok m.
Proof.
  unfold plain_record. rewrite !andb_true_iff.
  intros ((((((Hid & Hce) & Ham) & _) & Hcode) & Hmsg) & Hdate) Hc.
  assert (Hto : is_primitive (env_var (ALERT_EMAIL E)) = true)
    by now destruct (ALERT_EMAIL E).
  unfold alert_message, div_100. cbv zeta.
  destruct (to_string_or_primitive (engine E) _ "Unknown Customer" Hce)
    as [s1 ->].
  destruct (to_string_primitive (engine E) _ Hid) as [s2 ->].
  destruct (to_string_or_primitive (engine E) _ "Not available" Hce)
    as [s3 ->].
  rewrite (to_primitive_primitive (engine E) _ Ham), Hc.
  destruct (to_string_or_primitive (engine E) _ "Not specified" Hcode)
    as [s4 ->].
  destruct (to_string_or_primitive (engine E) _ "Not specified" Hmsg)
    as [s5 ->].
  destruct (to_string_primitive (engine E) _ Hdate) as [s6 ->].
  destruct (to_string_or_primitive (engine E) _ "admin@example.com" Hto)
    as [s7 ->].
  cbn [rbind JS.toUpperCase]. now eexists.
Qed.

(** C6: for a validly signed delivery with a recognized event type, the
    events of the delivery are, in this order: the notification
    channel is entered, makes at most one send, and is left; only then
    the store channel is entered, makes at most one append, and is
    left; or else, when no record is made or its identifier has no
    text, neither channel is entered.  Whenever the alert of the
    record can be built, as it can for every record of primitive
    values with a currency string, the Gmail send is made and then the
    store append is made. *)
Theorem notification_precedes_store
    (E : env) (body sig : jsval) (w : world) (event type : jsval) :
  constructEvent E w body sig (STRIPE_WEBHOOK_SECRET E) = Ok event ->
  JS.get event "type" = Ok type ->
  JS.includes recognized type = true ->
  (delivery_trace E body sig w =
     [Enter fn_processFailedPayment; Leave fn_processFailedPayment] \/
   exists a b,
     delivery_trace E body sig w =
       ([Enter fn_processFailedPayment; Enter fn_sendGmailAlert] ++ a ++
        [Leave fn_sendGmailAlert; Enter fn_addToAirtable] ++ b ++
        [Leave fn_addToAirtable; Leave fn_processFailedPayment])%list /\
     (a = [] \/ exists m r, a = [GmailSend m r]) /\
     (b = [] \/ exists row outcome, b = [TableCreate row outcome])) /\
  (forall pd m,
      paymentData_of E event = Ok pd ->
      alert_message E pd = Ok m ->
      exists sent row outcome,
        delivery_trace E body sig w =
          [Enter fn_processFailedPayment; Enter fn_sendGmailAlert;
           GmailSend m sent; Leave fn_sendGmailAlert;
           Enter fn_addToAirtable; TableCreate row outcome;
           Leave fn_addToAirtable; Leave fn_processFailedPayment]) /\
  (forall pd c,
      paymentData_of E event = Ok pd ->
      plain_record pd = true ->
      currency pd = JStr c ->
      exists m sent row outcome,
        delivery_trace E body sig w =
          [Enter fn_processFailedPayment; Enter fn_sendGmailAlert;
           GmailSend m sent; Leave fn_sendGmailAlert;
           Enter fn_addToAirtable; TableCreate row outcome;
           Leave fn_addToAirtable; Leave fn_processFailedPayment]) /\
  (forall e,
      paymentData_of E event = Throw e ->
      delivery_trace E body sig w =
        [Enter fn_processFailedPayment; Leave fn_processFailedPayment]).
Proof.
  intros Hsig Htype Hrec. unfold delivery_trace.
  rewrite (post_webhook_stripe_trace E body sig w event type Hsig Htype Hrec).
  pose proof (processFailedPayment_trace E event w) as Htrace.
  split; [|split; [|split]].
  - destruct (record_of E event) as [[pd id]|e].
    + right. destruct Htrace as (a & b & Ht & Ha & Hb).
      exists a, b. rewrite Ht, skipn_length_app. now repeat split.
    + left. now rewrite Htrace, skipn_length_app.
  - intros pd m Hpd Hm.
    destruct (processFailedPayment_trace_built E event w pd m Hpd Hm)
      as (sent & row & outcome & Ht).
    exists sent, row, outcome. now rewrite Ht, skipn_length_app.
  - intros pd c Hpd Hplain Hc.
    destruct (alert_message_plain E pd c Hplain Hc) as [m Hm].
    destruct (processFailedPayment_trace_built E event w pd m Hpd Hm)
      as (sent & row & outcome & Ht).
    exists m, sent, row, outcome. now rewrite Ht, skipn_length_app.
  - intros e He. rewrite (record_of_throws E event e He) in Htrace.
    now rewrite Htrace, skipn_length_app.
Qed.

(** ** A failing notification *)

Ltac keep_recent :=
  repeat match goal with
    | |- logged_recently _ _ (traced _ _) => apply logged_recently_traced
    | |- logged_recently _ _ (ticked _) => apply logged_recently_ticked
    | |- logged_recently _ _ (logged _ _ _) =>
        first [apply logged_recently_new
              |apply logged_recently_keep; [lia|]]
    end.

(** C1, as the code has it: for a validly signed delivery with a
    recognized event type, when the Gmail send throws, the error is
    logged, the store append is still made, after the notification
    channel has returned, and the outcome follows the append alone:
    200 with [{received: true}] when it succeeds, 500 when it fails. *)
Theorem gmail_failure_is_logged_and_store_still_called
    (E : env) (body sig : jsval) (w : world) (event type : jsval)
    (m : gmail_message) (e : error) :
  constructEvent E w body sig (STRIPE_WEBHOOK_SECRET E) = Ok event ->
  JS.get event "type" = Ok type ->
  JS.includes recognized type = true ->
  In (GmailSend m (Throw e)) (delivery_trace E body sig w) ->
  exists row outcome,
    delivery_trace E body sig w =
      [Enter fn_processFailedPayment; Enter fn_sendGmailAlert;
       GmailSend m (Throw e); Leave fn_sendGmailAlert;
       Enter fn_addToAirtable; TableCreate row outcome;
       Leave fn_addToAirtable; Leave fn_processFailedPayment] /\
    logged_in ("Error sending Gmail alert: " ++ err_message e)
              (fst (post_webhook_stripe E body sig w)) /\
    snd (post_webhook_stripe E body sig w) =
      Ok (if appended (engine E) outcome then Json 200 received_true
          else Send 500 "Internal Server Error").
Proof.
  intros Hsig Htype Hrec. unfold delivery_trace, appended.
  destruct (post_webhook_stripe_recognized E body sig w event type
              Hsig Htype Hrec) as (t & _ & ->).
  rewrite processFailedPayment_run. cbv zeta.
  destruct (record_of E event) as [[pd id]|e0].
  - rewrite sendGmailAlert_run. cbv zeta.
    destruct (alert_message E pd) as [m'|e'] eqn:Hm.
    + destruct (gmail_send E _ m') as [[]|e''] eqn:Hsend; cbn [fst];
        rewrite (addToAirtable_row E pd _ _ _
                   (alert_message_row_values E pd m' Hm)); cbv zeta;
        (destruct (store_answer _ _) as [[record0 text]|e1] eqn:Hans);
        cbn [fst snd trace traced logged ticked];
        rewrite <- !app_assoc; cbn [app]; rewrite skipn_length_app;
        intros Hin; cbn [In] in Hin;
        repeat (destruct Hin as [Hin|Hin]; try discriminate Hin);
        try contradiction;
        injection Hin as -> ->;
        eexists; eexists; (split; [reflexivity|]);
        (split; [|rewrite Hans; reflexivity]);
        apply (logged_recently_in 4); keep_recent.
    + cbn [fst].
      match goal with
      | |- context [addToAirtable E pd ?w3] =>
          destruct (addToAirtable_trace E pd w3) as (b & Hb & Hcase)
      end.
      destruct (addToAirtable E pd _) as [w4 [record|e1]];
        cbn [fst snd trace traced logged] in *; rewrite Hb;
        cbn [trace traced logged];
        rewrite <- !app_assoc; cbn [app]; rewrite skipn_length_app;
        intros Hin; cbn [In] in Hin;
        repeat (destruct Hin as [Hin|Hin]; try discriminate Hin);
        apply in_app_or in Hin as [Hin|Hin];
        try (destruct Hcase as [-> | (row & outcome & ->)]);
        cbn [In] in Hin;
        repeat (destruct Hin as [Hin|Hin]; try discriminate Hin);
        contradiction.
  - cbn [fst snd trace traced logged ticked].
    rewrite <- !app_assoc; cbn [app]; rewrite skipn_length_app.
    intros Hin; cbn [In] in Hin.
    repeat (destruct Hin as [Hin|Hin]; try discriminate Hin). contradiction.
Qed.

(** C1 does not hold as stated.  With Gmail down, a signed
    charge-failed delivery still reaches the store and is acknowledged
    with 200: the send throws, yet the trace holds an append and the
    answer is not a 500. *)
Lemma gmail_failure_does_not_abort_delivery :
  constructEvent Sample.gmail_down initial_world Sample.charge_failed
    Sample.signature (STRIPE_WEBHOOK_SECRET Sample.gmail_down) =
    Ok Sample.charge_failed /\
  JS.get Sample.charge_failed "type" = Ok (JStr "charge.failed") /\
  JS.includes recognized (JStr "charge.failed") = true /\
  In (GmailSend Sample.alert (Throw Sample.invalid_grant))
     (delivery_trace Sample.gmail_down Sample.charge_failed Sample.signature
                     initial_world) /\
  (exists row,
      In (TableCreate row (Ok Sample.created_record))
         (delivery_trace Sample.gmail_down Sample.charge_failed
                         Sample.signature initial_world)) /\
  snd (post_webhook_stripe Sample.gmail_down Sample.charge_failed
         Sample.signature initial_world) = Ok (Json 200 received_true) /\
  ~ ((forall row outcome,
         ~ In (TableCreate row outcome)
              (delivery_trace Sample.gmail_down Sample.charge_failed
                              Sample.signature initial_world)) /\
     snd (post_webhook_stripe Sample.gmail_down Sample.charge_failed
            Sample.signature initial_world) =
       Ok (Send 500 "Internal Server Error")).
Proof.
  split; [reflexivity|]. split; [reflexivity|]. split; [reflexivity|].
  split; [vm_compute; tauto|].
  split; [eexists; vm_compute; do 5 right; left; reflexivity|].
  split; [reflexivity|].
  intros [_ H]. vm_compute in H. discriminate H.
Qed.

(** ** The properties on the sample deliveries *)

Lemma charge_failed_envelope :
  envelope "charge.failed" 1700000000 Sample.charge Sample.charge_failed.
Proof. repeat split. Defined.

Lemma charge_failed_recognized : In "charge.failed" recognized.
Proof. right. right. left. reflexivity. Defined.

Lemma gmail_failure_is_logged_and_store_still_called_witness :
  constructEvent Sample.gmail_down initial_world Sample.charge_failed
    Sample.signature (STRIPE_WEBHOOK_SECRET Sample.gmail_down) =
    Ok Sample.charge_failed /\
  JS.get Sample.charge_failed "type" = Ok (JStr "charge.failed") /\
  JS.includes recognized (JStr "charge.failed") = true /\
  In (GmailSend Sample.alert (Throw Sample.invalid_grant))
     (delivery_trace Sample.gmail_down Sample.charge_failed Sample.signature
                     initial_world) /\
  exists row outcome,
    delivery_trace Sample.gmail_down Sample.charge_failed Sample.signature
                   initial_world =
      [Enter fn_processFailedPayment; Enter fn_sendGmailAlert;
       GmailSend Sample.alert (Throw Sample.invalid_grant);
       Leave fn_sendGmailAlert;
       Enter fn_addToAirtable; TableCreate row outcome;
       Leave fn_addToAirtable; Leave fn_processFailedPayment] /\
    logged_in ("Error sending Gmail alert: " ++
               err_message Sample.invalid_grant)
              (fst (post_webhook_stripe Sample.gmail_down Sample.charge_failed
                      Sample.signature initial_world)) /\
    snd (post_webhook_stripe Sample.gmail_down Sample.charge_failed
           Sample.signature initial_world) =
      Ok (if appended (engine Sample.gmail_down) outcome then Json 200 received_true
          else Send 500 "Internal Server Error").
Proof.
  assert (Hin : In (GmailSend Sample.alert (Throw Sample.invalid_grant))
                   (delivery_trace Sample.gmail_down Sample.charge_failed
                                   Sample.signature initial_world))
    by (vm_compute; tauto).
  repeat (split; [reflexivity || exact Hin|]).
  exact (gmail_failure_is_logged_and_store_still_called
           Sample.gmail_down Sample.charge_failed Sample.signature
           initial_world Sample.charge_failed (JStr "charge.failed")
           Sample.alert Sample.invalid_grant eq_refl eq_refl eq_refl Hin).
Defined.

Lemma normalizer_record_fields_witness :
  envelope "payment_intent.payment_failed" 1700000000
           Sample.intent Sample.intent_failed /\
  In "payment_intent.payment_failed" recognized /\
  exists pd,
    paymentData_of Sample.gmail_down Sample.intent_failed = Ok pd /\
    customer_email pd = JStr "Unknown" /\
    failed_at pd = JStr "2023-11-14T22:13:20.000Z" /\
    payment_id pd = JStr "pi_1" /\
    amount pd = JNum 2500 /\
    currency pd = JStr "usd" /\
    failure_code pd = JUndefined /\
    failure_message pd = JUndefined.
Proof.
  assert (Henv : envelope "payment_intent.payment_failed" 1700000000
                          Sample.intent Sample.intent_failed)
    by (repeat split).
  assert (Hin : In "payment_intent.payment_failed" recognized)
    by (left; reflexivity).
  split; [exact Henv|]. split; [exact Hin|].
  destruct (normalizer_record_fields Sample.gmail_down _ _ _ _ Henv Hin)
    as (pd & Hpd & _ & _ & Hid & Ham & Hcur & _ & _ & _ & Hundef).
  destruct (Hundef eq_refl eq_refl) as [Hcode Hmsg].
  exists pd. split; [exact Hpd|].
  assert (Hpd' := Hpd). vm_compute in Hpd'. injection Hpd' as <-.
  repeat split.
Defined.

Lemma normalizer_copies_amount_currency_time_witness :
  envelope "charge.failed" 1700000000 Sample.charge Sample.charge_failed /\
  In "charge.failed" recognized /\
  exists pd,
    paymentData_of Sample.gmail_down Sample.charge_failed = Ok pd /\
    amount pd = JNum 2500 /\
    currency pd = JStr "usd" /\
    failed_at pd = JStr "2023-11-14T22:13:20.000Z".
Proof.
  split; [exact charge_failed_envelope|].
  split; [exact charge_failed_recognized|].
  exact (normalizer_copies_amount_currency_time Sample.gmail_down
           "charge.failed" 1700000000 Sample.charge Sample.charge_failed
           charge_failed_envelope charge_failed_recognized).
Defined.

Lemma invalid_signature_is_rejected_witness :
  constructEvent Sample.forged initial_world Sample.charge_failed
    Sample.signature (STRIPE_WEBHOOK_SECRET Sample.forged) =
    Throw Sample.bad_signature /\
  snd (post_webhook_stripe Sample.forged Sample.charge_failed
         Sample.signature initial_world) =
    Ok (Send 400
          "Webhook Error: No signatures found matching the expected signature for payload.") /\
  delivery_trace Sample.forged Sample.charge_failed Sample.signature
                 initial_world = [].
Proof.
  split; [reflexivity|].
  destruct (invalid_signature_is_rejected Sample.forged Sample.charge_failed
              Sample.signature initial_world Sample.bad_signature eq_refl)
    as (Hrun & _ & Htrace).
  split; [now rewrite Hrun | exact Htrace].
Defined.

Lemma unrecognized_event_is_acknowledged_witness :
  constructEvent Sample.gmail_down initial_world Sample.customer_created
    Sample.signature (STRIPE_WEBHOOK_SECRET Sample.gmail_down) =
    Ok Sample.customer_created /\
  JS.get Sample.customer_created "type" = Ok (JStr "customer.created") /\
  JS.includes recognized (JStr "customer.created") = false /\
  JS.to_string (engine Sample.gmail_down) (JStr "customer.created") =
    Ok "customer.created" /\
  snd (post_webhook_stripe Sample.gmail_down Sample.customer_created
         Sample.signature initial_world) = Ok (Json 200 received_true) /\
  logs (fst (post_webhook_stripe Sample.gmail_down Sample.customer_created
               Sample.signature initial_world)) =
    [mkLog "2023-11-14T22:13:20.000Z"
           "Unhandled event type: customer.created"] /\
  delivery_trace Sample.gmail_down Sample.customer_created Sample.signature
                 initial_world = [].
Proof.
  do 4 (split; [reflexivity|]).
  destruct (unrecognized_event_is_acknowledged Sample.gmail_down
              Sample.customer_created Sample.signature initial_world
              Sample.customer_created (JStr "customer.created")
              "customer.created" eq_refl eq_refl eq_refl eq_refl)
    as (Hrun & _ & Htrace).
  split; [now rewrite Hrun|].
  split; [now rewrite Hrun | exact Htrace].
Defined.

Lemma notification_precedes_store_witness :
  constructEvent Sample.gmail_down initial_world Sample.charge_failed
    Sample.signature (STRIPE_WEBHOOK_SECRET Sample.gmail_down) =
    Ok Sample.charge_failed /\
  JS.get Sample.charge_failed "type" = Ok (JStr "charge.failed") /\
  JS.includes recognized (JStr "charge.failed") = true /\
  exists pd,
    paymentData_of Sample.gmail_down Sample.charge_failed = Ok pd /\
    alert_message Sample.gmail_down pd = Ok Sample.alert /\
    exists sent row outcome,
      delivery_trace Sample.gmail_down Sample.charge_failed Sample.signature
                     initial_world =
        [Enter fn_processFailedPayment; Enter fn_sendGmailAlert;
         GmailSend Sample.alert sent; Leave fn_sendGmailAlert;
         Enter fn_addToAirtable; TableCreate row outcome;
         Leave fn_addToAirtable; Leave fn_processFailedPayment].
Proof.
  do 3 (split; [reflexivity|]).
  pose proof (paymentData_of_charge Sample.gmail_down 1700000000
                Sample.charge Sample.charge_failed charge_failed_envelope)
    as Hpd.
  match type of Hpd with _ = Ok ?r => set (pd := r) in Hpd end.
  assert (Hm : alert_message Sample.gmail_down pd = Ok Sample.alert)
    by reflexivity.
  exists pd. split; [exact Hpd|]. split; [exact Hm|].
  exact (proj1 (proj2 (notification_precedes_store Sample.gmail_down
                         Sample.charge_failed Sample.signature initial_world
                         Sample.charge_failed (JStr "charge.failed")
                         eq_refl eq_refl eq_refl)) pd Sample.alert Hpd Hm).
Defined.

Lemma charge_email_ordered_fallback_witness :
  envelope "charge.failed" 1700000000 Sample.charge Sample.charge_failed /\
  JS.truthy (JS.assoc "receipt_email" Sample.charge) = true /\
  exists pd,
    paymentData_of Sample.gmail_down Sample.charge_failed = Ok pd /\
    customer_email pd = JStr "a@b.com".
Proof.
  split; [exact charge_failed_envelope|]. split; [reflexivity|].
  destruct (charge_email_ordered_fallback Sample.gmail_down 1700000000
              Sample.charge Sample.charge_failed charge_failed_envelope)
    as (pd & Hpd & _ & Hreceipt & _).
  exists pd. split; [exact Hpd | exact (Hreceipt eq_refl)].
Defined.

Lemma sendGmailAlert_never_throws_witness :
  alert_message Sample.gmail_down Sample.record =
    Ok {| mail_to := "admin@example.com";
          subject_customer := "Unknown Customer";
          body_payment_id := "ch_1";
          body_customer := "Not available";
          body_amount := mkQuotient (JNum 2500) 100;
          body_currency := "USD";
          body_failure_code := "Not specified";
          body_failure_message := "Not specified";
          body_date := "2023-11-14T22:13:20.000Z" |} /\
  snd (sendGmailAlert Sample.gmail_down Sample.record initial_world) = Ok tt /\
  logs (fst (sendGmailAlert Sample.gmail_down Sample.record initial_world)) =
    [mkLog "2023-11-14T22:13:20.000Z"
           "Error sending Gmail alert: invalid_grant"].
Proof.
  split; [reflexivity|].
  destruct (sendGmailAlert_never_throws Sample.gmail_down Sample.record
              initial_world) as [Hret Hlog].
  split; [exact Hret|].
  rewrite (Hlog _ Sample.invalid_grant eq_refl eq_refl). reflexivity.
Defined.


(** The round trip of the specification: a signed charge-failed
    delivery with every collaborator answering is acknowledged, and
    each channel is called exactly once, with the values of the
    charge. *)
Example charge_failed_round_trip :
  snd (post_webhook_stripe Sample.healthy Sample.charge_failed
         Sample.signature initial_world) = Ok (Json 200 received_true) /\
  delivery_trace Sample.healthy Sample.charge_failed Sample.signature
                 initial_world =
    [Enter fn_processFailedPayment; Enter fn_sendGmailAlert;
     GmailSend
       {| mail_to := "ops@example.com";
          subject_customer := "a@b.com";
          body_payment_id := "ch_1";
          body_customer := "a@b.com";
          body_amount := mkQuotient (JNum 2500) 100;
          body_currency := "USD";
          body_failure_code := "card_declined";
          body_failure_message := "Your card was declined.";
          body_date := "2023-11-14T22:13:20.000Z" |} (Ok tt);
     Leave fn_sendGmailAlert; Enter fn_addToAirtable;
     TableCreate
       {| Payment_ID := JStr "ch_1";
          Customer_Email := JStr "a@b.com";
          Amount := mkQuotient (JNum 2500) 100;
          Currency := JStr "USD";
          Failure_Code := JStr "card_declined";
          Failure_Message := JStr "Your card was declined.";
          Failed_At := JStr "2023-11-14T22:13:20.000Z";
          Status := JStr "New";
          Created_At := JStr "2023-11-14T22:13:20.002Z" |}
       (Ok Sample.created_record);
     Leave fn_addToAirtable; Leave fn_processFailedPayment].
Proof. split; vm_compute; reflexivity. Qed.

(** * Further properties of the code *)

Lemma events_since_app w w' t :
  trace w' = (trace w ++ t)%list -> events_since w w' = t.
Proof. unfold events_since. intros ->. apply skipn_length_app. Qed.

Ltac in_cases H :=
  cbn [In] in H;
  repeat (destruct H as [H|H]; try discriminate H);
  try contradiction.

(** ** The record store channel: what it returns, throws and logs *)

Lemma addToAirtable_events_since E pd w :
  match row_values (engine E) pd with
  | Ok (q, cur) =>
      exists row,
        events_since w (fst (addToAirtable E pd w)) =
          [Enter fn_addToAirtable;
           TableCreate row
             (table_create E (ticked (traced (Enter fn_addToAirtable) w)) row);
           Leave fn_addToAirtable] /\
        row =
          {| Payment_ID := payment_id pd;
             Customer_Email := JS.or (customer_email pd) (JStr "Unknown");
             Amount := q;
             Currency := JStr cur;
             Failure_Code := JS.or (failure_code pd) (JStr "Unknown");
             Failure_Message := JS.or (failure_message pd) (JStr "Unknown");
             Failed_At := failed_at pd;
             Status := JStr "New";
             Created_At := JStr (Date.iso_string (now E (ticks w))) |}
  | Throw _ =>
      events_since w (fst (addToAirtable E pd w)) =
        [Enter fn_addToAirtable; Leave fn_addToAirtable]
  end.
Proof.
  pose proof (addToAirtable_events E pd w) as Hev.
  destruct (row_values (engine E) pd) as [[q cur]|e].
  - destruct Hev as (row & Ht & Hrow). exists row.
    split; [now apply events_since_app | exact Hrow].
  - now apply events_since_app.
Qed.


(** X3: an error thrown by the store is thrown on by [addToAirtable]
    unchanged, after it has been logged. *)
Theorem addToAirtable_rethrows_store_error
    (E : env) (pd : payment_data) (w : world)
    (row : airtable_fields) (e : error) :
  In (TableCreate row (Throw e))
     (events_since w (fst (addToAirtable E pd w))) ->
  snd (addToAirtable E pd w) = Throw e /\
  logged_in ("Error adding to Airtable: " ++ err_message e)
            (fst (addToAirtable E pd w)).
Proof.
  pose proof (addToAirtable_events_since E pd w) as Hev.
  destruct (row_values (engine E) pd) as [[q cur]|e0] eqn:Hv.
  - destruct Hev as (row0 & Hev & Hrow).
    rewrite Hev. intros Hin. in_cases Hin.
    injection Hin as -> Hout.
    rewrite (addToAirtable_row E pd w q cur Hv). cbv zeta.
    rewrite <- Hrow, Hout. cbn [store_answer rbind fst snd].
    split; [reflexivity|].
    apply (logged_recently_in 1); keep_recent.
  - rewrite Hev. intros Hin. in_cases Hin.
Qed.

(** X4: for a record without a currency string [addToAirtable] builds
    no row: the store is not called, a [TypeError] is thrown. *)
Theorem addToAirtable_without_currency
    (E : env) (pd : payment_data) (w : world) :
  (forall c, currency pd <> JStr c) ->
  events_since w (fst (addToAirtable E pd w)) =
    [Enter fn_addToAirtable; Leave fn_addToAirtable] /\
  exists e, snd (addToAirtable E pd w) = Throw e /\ err_name e = "TypeError".
Proof.
  intros Hno. pose proof (addToAirtable_events_since E pd w) as Hev.
  destruct (row_values (engine E) pd) as [[q cur]|e] eqn:Hv.
  - destruct (row_values_inv _ _ _ _ Hv) as (_ & _ & c & Hc & _).
    now destruct (Hno c).
  - split; [exact Hev|].
    exists e. rewrite (addToAirtable_no_row E pd w e Hv).
    split; [reflexivity | exact (row_values_throws _ _ _ Hv)].
Qed.

(** ** The notification channel: what it sends *)

Lemma toUpperCase_throws R src v e :
  JS.toUpperCase R src v = Throw e -> err_name e = "TypeError".
Proof.
  destruct v; cbn; try discriminate; intros H; now injection H as <-.
Qed.

Lemma div_100_throws R v e :
  div_100 R v = Throw e -> err_name e = "TypeError".
Proof.
  unfold div_100.
  destruct (JS.to_primitive R v) as [p|e0] eqn:Hp; cbn [rbind];
    [discriminate|].
  intros H. injection H as <-. exact (JS_to_primitive_throws _ _ _ Hp).
Qed.

(** Whatever the building of the alert throws is a [TypeError]. *)
Lemma alert_message_throws E pd e :
  alert_message E pd = Throw e -> err_name e = "TypeError".
Proof.
  unfold alert_message. cbv zeta.
  repeat match goal with
    | |- context [rbind ?r _] =>
        let H := fresh "Hpart" in
        destruct r eqn:H; cbn [rbind];
        [|intros Heq; injection Heq as <-;
          first [exact (JS_to_string_throws_type _ _ _ H)
                |exact (div_100_throws _ _ _ H)
                |exact (toUpperCase_throws _ _ _ _ H)]]
    end.
  discriminate.
Qed.

Lemma alert_message_currency E pd m :
  alert_message E pd = Ok m ->
  exists c, currency pd = JStr c /\
            body_currency m = JS.upper_string (engine E) c.
Proof.
  intros Hm. destruct (alert_message_inv E pd m Hm)
    as (_ & _ & _ & _ & Hcur & _).
  destruct (currency pd); cbn in Hcur; try discriminate Hcur.
  injection Hcur as <-. now eexists.
Qed.

(** X5: for a record without a currency string [sendGmailAlert] sends
    nothing: Gmail is not called, the [TypeError] is logged and the
    operation still returns normally. *)
Theorem sendGmailAlert_without_currency
    (E : env) (pd : payment_data) (w : world) :
  (forall c, currency pd <> JStr c) ->
  snd (sendGmailAlert E pd w) = Ok tt /\
  events_since w (fst (sendGmailAlert E pd w)) =
    [Enter fn_sendGmailAlert; Leave fn_sendGmailAlert] /\
  exists e,
    err_name e = "TypeError" /\
    logs (fst (sendGmailAlert E pd w)) =
      push_log (logs w)
        (mkLog (Date.iso_string (now E (ticks w)))
               ("Error sending Gmail alert: " ++ err_message e)).
Proof.
  intros Hno. split; [apply sendGmailAlert_returns|].
  destruct (alert_message E pd) as [m|e] eqn:Hm.
  { destruct (alert_message_currency E pd m Hm) as (c & Hc & _).
    now destruct (Hno c). }
  rewrite sendGmailAlert_run, Hm. cbv zeta. split.
  - apply events_since_app. cbn [fst trace traced logged].
    now rewrite <- !app_assoc.
  - exists e. split; [exact (alert_message_throws E pd e Hm) | reflexivity].
Qed.

Lemma sendGmailAlert_events_since E pd w :
  match alert_message E pd with
  | Ok m =>
      events_since w (fst (sendGmailAlert E pd w)) =
        [Enter fn_sendGmailAlert;
         GmailSend m (gmail_send E (traced (Enter fn_sendGmailAlert) w) m);
         Leave fn_sendGmailAlert]
  | Throw _ =>
      events_since w (fst (sendGmailAlert E pd w)) =
        [Enter fn_sendGmailAlert; Leave fn_sendGmailAlert]
  end.
Proof.
  rewrite sendGmailAlert_run. cbv zeta.
  destruct (alert_message E pd) as [m|e].
  - apply events_since_app.
    destruct (gmail_send E _ m) as [[]|e];
      cbn [fst trace traced logged]; now rewrite <- !app_assoc.
  - apply events_since_app. cbn [fst trace traced logged].
    now rewrite <- !app_assoc.
Qed.

(** X6: every message that [sendGmailAlert] hands to Gmail is the only
    one of the call, names the customer as "Unknown Customer" in the
    subject and "Not available" in the body when the record has no
    e-mail address, gives "Not specified" for an absent failure code
    or message, carries the currency as [toUpperCase] returns it, and
    goes to admin@example.com when no ALERT_EMAIL is configured.  And
    a message is handed over whenever the record's fields are
    primitive values and its currency is a string. *)
Theorem sendGmailAlert_message_defaults
    (E : env) (pd : payment_data) (w : world) :
  (forall m outcome,
      In (GmailSend m outcome) (events_since w (fst (sendGmailAlert E pd w))) ->
      events_since w (fst (sendGmailAlert E pd w)) =
        [Enter fn_sendGmailAlert; GmailSend m outcome;
         Leave fn_sendGmailAlert] /\
      (exists c, currency pd = JStr c /\
                 body_currency m = JS.upper_string (engine E) c) /\
      (absent_or_empty (customer_email pd) = true ->
         subject_customer m = "Unknown Customer" /\
         body_customer m = "Not available") /\
      (forall s, customer_email pd = JStr s -> s <> "" ->
         subject_customer m = s /\ body_customer m = s) /\
      (absent_or_empty (failure_code pd) = true ->
         body_failure_code m = "Not specified") /\
      (absent_or_empty (failure_message pd) = true ->
         body_failure_message m = "Not specified") /\
      (ALERT_EMAIL E = None \/ ALERT_EMAIL E = Some "" ->
         mail_to m = "admin@example.com") /\
      (forall s, ALERT_EMAIL E = Some s -> s <> "" -> mail_to m = s)) /\
  (forall c,
      plain_record pd = true ->
      currency pd = JStr c ->
      exists m outcome,
        events_since w (fst (sendGmailAlert E pd w)) =
          [Enter fn_sendGmailAlert; GmailSend m outcome;
           Leave fn_sendGmailAlert]).
Proof.
  pose proof (sendGmailAlert_events_since E pd w) as Hev. split.
  - intros m outcome Hin.
    destruct (alert_message E pd) as [m0|e] eqn:Hm;
      rewrite Hev in Hin; in_cases Hin.
    injection Hin as <- <-. split; [exact Hev|].
    split; [exact (alert_message_currency E pd m0 Hm)|].
    destruct (alert_message_inv E pd m0 Hm)
      as (Hsub & _ & Hcust & _ & _ & Hcode & Hmsg & _ & Hto).
    assert (Hstr : forall v s d t,
               v = JStr s -> s <> "" ->
               JS.to_string (engine E) (JS.or v (JStr d)) = Ok t -> t = s).
    { intros v s d t -> Hs. rewrite or_present.
      - rewrite to_string_str. intros H. now injection H.
      - cbn. now apply negb_true_iff, String.eqb_neq. }
    assert (Habs : forall v d t,
               absent_or_empty v = true ->
               JS.to_string (engine E) (JS.or v (JStr d)) = Ok t -> t = d).
    { intros v d t Hv. rewrite (or_absent _ _ Hv), to_string_str.
      intros H. now injection H. }
    repeat split; intros; eauto.
    + apply (Habs (env_var (ALERT_EMAIL E)) "admin@example.com");
        [|exact Hto].
      now destruct H as [-> | ->].
    + apply (Hstr (env_var (ALERT_EMAIL E)) s "admin@example.com");
        [now rewrite H | assumption | exact Hto].
  - intros c Hplain Hc.
    destruct (alert_message_plain E pd c Hplain Hc) as [m Hm].
    rewrite Hm in Hev. eauto.
Qed.

(** ** The normalizer: envelopes it rejects *)

Lemma recognized_type_branch (E : env) (event : jsval) (type : string) :
  JS.get event "type" = Ok (JStr type) ->
  In type recognized ->
  forall e,
    (event_data_object event = Throw e \/
     (exists payload,
         event_data_object event = Ok payload /\
         JS.get payload "id" = Throw e) \/
     (exists payload,
         event_data_object event = Ok payload /\
         (forall e', JS.get payload "id" <> Throw e') /\
         event_created_iso E event = Throw e)) ->
    paymentData_of E event = Throw e.
Proof.
  intros Ht Hin e Hcause. unfold paymentData_of. rewrite Ht. cbn [rbind].
  assert (Hget : forall payload k,
             (forall e', JS.get payload "id" <> Throw e') ->
             JS.get payload k = Ok (JS.get_opt payload k)).
  { intros payload k Hok. destruct payload; cbn in *; try reflexivity;
      now destruct (Hok _ eq_refl). }
  destruct (recognized_cases _ Hin) as [-> | [-> | ->]];
    cbn [JS.strict_eq_str String.eqb Ascii.eqb Bool.eqb];
    (destruct Hcause as [-> | [(payload & -> & Hid) | (payload & -> & Hok & Hc)]];
     [reflexivity
     |cbn [rbind]; rewrite Hid; reflexivity
     |cbn [rbind]; rewrite !(Hget payload) by exact Hok; cbn [rbind];
      rewrite Hc; reflexivity]).
Qed.

(** X7: an envelope with a recognized tag and a payload object but
    whose creation time is missing, converts to no number, or lies
    outside the range of dates yields no record: the normalizer throws
    the [RangeError] "Invalid time value" of [toISOString]. *)
Theorem normalizer_rejects_invalid_created
    (E : env) (event : jsval) (type : string)
    (object : list (string * jsval)) (created : jsval) :
  JS.get event "type" = Ok (JStr type) ->
  In type recognized ->
  event_data_object event = Ok (JObj object) ->
  JS.get event "created" = Ok created ->
  match times_1000 (engine E) created with
  | Ok (Some ms) => Date.valid ms = false
  | Ok None => True
  | Throw _ => False
  end ->
  paymentData_of E event = Throw Date.invalid_time.
Proof.
  intros Ht Hin Ho Hc Hbad.
  apply (recognized_type_branch E event type Ht Hin).
  right. right. exists (JObj object).
  split; [exact Ho|]. split; [discriminate|].
  unfold event_created_iso. rewrite Hc. cbn [rbind].
  destruct (times_1000 (engine E) created) as [[ms|]|e];
    cbn [rbind Date.toISOString]; [rewrite Hbad| |destruct Hbad]; reflexivity.
Qed.

(** X8: an envelope with a recognized tag but without [data], or whose
    [data.object] is [null] or absent, yields no record: the
    normalizer throws the [TypeError] of the property access. *)
Theorem normalizer_rejects_missing_payload
    (E : env) (event : jsval) (type : string) :
  JS.get event "type" = Ok (JStr type) ->
  In type recognized ->
  (JS.get event "data" = Ok JUndefined ->
     paymentData_of E event = Throw (JS.cannot_read "undefined" "object")) /\
  (event_data_object event = Ok JUndefined ->
     paymentData_of E event = Throw (JS.cannot_read "undefined" "id")) /\
  (event_data_object event = Ok JNull ->
     paymentData_of E event = Throw (JS.cannot_read "null" "id")).
Proof.
  intros Ht Hin. repeat split; intros H;
    apply (recognized_type_branch E event type Ht Hin).
  - left. unfold event_data_object. rewrite H. reflexivity.
  - right. left. exists JUndefined. now split.
  - right. left. exists JNull. now split.
Qed.

(** ** One delivery: outcomes *)

Lemma unrecognized_type_gives_empty_record E event type :
  JS.get event "type" = Ok type ->
  JS.includes recognized type = false ->
  paymentData_of E event = Ok empty_payment_data.
Proof.
  intros Ht Hrec. unfold paymentData_of. rewrite Ht. cbn [rbind].
  unfold JS.includes, recognized in Hrec. cbn [existsb] in Hrec.
  apply orb_false_iff in Hrec as [H1 Hrec].
  apply orb_false_iff in Hrec as [H2 Hrec].
  apply orb_false_iff in Hrec as [H3 _].
  now rewrite H1, H2, H3.
Qed.

(** X9: called on an event whose type is none of the three tags,
    [processFailedPayment] works on the empty record: it logs
    "Processing failed payment: undefined", enters both channels, but
    neither calls its collaborator, and the [TypeError] of the store
    channel is thrown on to the caller. *)
Theorem processFailedPayment_unrecognized_type
    (E : env) (event type : jsval) (w : world) :
  JS.get event "type" = Ok type ->
  JS.includes recognized type = false ->
  events_since w (fst (processFailedPayment E event w)) =
    [Enter fn_processFailedPayment;
     Enter fn_sendGmailAlert; Leave fn_sendGmailAlert;
     Enter fn_addToAirtable; Leave fn_addToAirtable;
     Leave fn_processFailedPayment] /\
  snd (processFailedPayment E event w) =
    Throw (JS.cannot_read "undefined" "toUpperCase") /\
  logged_in "Processing failed payment: undefined"
            (fst (processFailedPayment E event w)).
Proof.
  intros Ht Hrec.
  rewrite processFailedPayment_run,
    (record_of_ok E event empty_payment_data "undefined"
       (unrecognized_type_gives_empty_record E event type Ht Hrec) eq_refl).
  cbv zeta. rewrite sendGmailAlert_run. cbv zeta.
  change (alert_message E empty_payment_data)
    with (@Throw gmail_message (JS.cannot_read "undefined" "toUpperCase")).
  cbn [fst].
  rewrite (addToAirtable_no_row E empty_payment_data _
             (JS.cannot_read "undefined" "toUpperCase") eq_refl).
  cbn [fst snd]. split; [|split; [reflexivity|]].
  - apply events_since_app. cbn [trace traced logged].
    now rewrite <- !app_assoc.
  - apply (logged_recently_in 4). keep_recent.
Qed.

(** What a delivery with a record does: both channels in order, and the
    result of [processFailedPayment] is the result of the append. *)
Lemma processFailedPayment_with_record E event w pd id :
  record_of E event = Ok (pd, id) ->
  exists a b,
    trace (fst (processFailedPayment E event w)) =
      (trace w ++
       [Enter fn_processFailedPayment; Enter fn_sendGmailAlert] ++ a ++
       [Leave fn_sendGmailAlert; Enter fn_addToAirtable] ++ b ++
       [Leave fn_addToAirtable; Leave fn_processFailedPayment])%list /\
    (a = [] \/ exists m r, a = [GmailSend m r]) /\
    ((b = [] /\ exists e, snd (processFailedPayment E event w) = Throw e) \/
     (exists row outcome,
         b = [TableCreate row outcome] /\
         ((appended (engine E) outcome = true /\
           snd (processFailedPayment E event w) = Ok tt) \/
          (appended (engine E) outcome = false /\
           exists e, snd (processFailedPayment E event w) = Throw e)))).
Proof.
  intros Hpd. rewrite processFailedPayment_run, Hpd. cbv zeta.
  set (w2 := logged E _ _).
  destruct (sendGmailAlert_trace E pd w2) as (a & Ha & Hcase_a).
  set (w3 := fst (sendGmailAlert E pd w2)) in *.
  exists a.
  destruct (row_values (engine E) pd) as [[q cur]|e] eqn:Hc.
  - rewrite (addToAirtable_row E pd w3 q cur Hc). cbv zeta. unfold appended.
    eexists [TableCreate _ _].
    destruct (store_answer _ _) as [[record0 text]|e] eqn:Hout;
      (split; [|split; [exact Hcase_a|]]);
      [ | right; do 2 eexists; split; [reflexivity|]; left; rewrite Hout; now split
        | | right; do 2 eexists; split; [reflexivity|]; right; rewrite Hout;
            split; [reflexivity|]; now eexists ];
      cbn [fst trace traced logged ticked]; rewrite Ha; subst w2;
      cbn [trace traced logged]; rewrite <- !app_assoc; cbn [app];
      rewrite <- !app_assoc; reflexivity.
  - rewrite (addToAirtable_no_row E pd w3 e Hc). exists [].
    split; [|split; [exact Hcase_a|left; split; [reflexivity|now eexists]]].
    cbn [fst trace traced logged]. rewrite Ha. subst w2.
    cbn [trace traced logged]. rewrite <- !app_assoc. cbn [app].
    rewrite <- !app_assoc. reflexivity.
Qed.

Lemma webhook_answer E body sig w event type :
  constructEvent E w body sig (STRIPE_WEBHOOK_SECRET E) = Ok event ->
  JS.get event "type" = Ok type ->
  JS.includes recognized type = true ->
  snd (post_webhook_stripe E body sig w) =
    match snd (processFailedPayment E event w) with
    | Ok _ => Ok (Json 200 received_true)
    | Throw _ => Ok (Send 500 "Internal Server Error")
    end.
Proof.
  intros Hsig Htype Hrec.
  destruct (post_webhook_stripe_recognized E body sig w event type
              Hsig Htype Hrec) as (t & _ & ->).
  destruct (processFailedPayment E event w) as [w1 [[]|e]]; reflexivity.
Qed.

Lemma in_channel_events row outcome a b :
  (a = [] \/ exists m r, a = [GmailSend m r]) ->
  In (TableCreate row outcome)
     ([Enter fn_processFailedPayment; Enter fn_sendGmailAlert] ++ a ++
      [Leave fn_sendGmailAlert; Enter fn_addToAirtable] ++ b ++
      [Leave fn_addToAirtable; Leave fn_processFailedPayment]) ->
  In (TableCreate row outcome) b.
Proof.
  intros Ha Hin. cbn [app In] in Hin.
  destruct Hin as [Hin|[Hin|Hin]]; try discriminate Hin.
  apply in_app_or in Hin as [Hin|Hin].
  { destruct Ha as [-> | (m & r & ->)]; in_cases Hin. }
  cbn [app In] in Hin.
  destruct Hin as [Hin|[Hin|Hin]]; try discriminate Hin.
  apply in_app_or in Hin as [Hin|Hin]; [exact Hin|]. in_cases Hin.
Qed.

(** X10: a validly signed delivery with a recognized event type is
    always answered, with 200 or with 500, and it is answered 200
    exactly when the store append was made and succeeded; the outcome
    of the Gmail send has no part in it. *)
Theorem webhook_answer_follows_the_store
    (E : env) (body sig : jsval) (w : world) (event type : jsval) :
  constructEvent E w body sig (STRIPE_WEBHOOK_SECRET E) = Ok event ->
  JS.get event "type" = Ok type ->
  JS.includes recognized type = true ->
  (snd (post_webhook_stripe E body sig w) = Ok (Json 200 received_true) \/
   snd (post_webhook_stripe E body sig w) =
     Ok (Send 500 "Internal Server Error")) /\
  (snd (post_webhook_stripe E body sig w) = Ok (Json 200 received_true) <->
   exists row outcome,
     In (TableCreate row outcome) (delivery_trace E body sig w) /\
     appended (engine E) outcome = true).
Proof.
  intros Hsig Htype Hrec.
  rewrite (webhook_answer E body sig w event type Hsig Htype Hrec).
  unfold delivery_trace.
  rewrite (post_webhook_stripe_trace E body sig w event type Hsig Htype Hrec).
  destruct (record_of E event) as [[pd id]|e0] eqn:Hpd.
  - destruct (processFailedPayment_with_record E event w pd id Hpd)
      as (a & b & Ht & Ha & Hb).
    rewrite Ht, skipn_length_app.
    destruct Hb as [(-> & e & ->) | (row & outcome & -> & Hout)].
    + split; [now right|]. split; [discriminate|].
      intros (row & outcome & Hin & _).
      apply in_channel_events in Hin; [in_cases Hin | exact Ha].
    + destruct Hout as [(Happ & ->) | (Happ & e & ->)].
      * split; [now left|]. split; [|reflexivity].
        intros _. exists row, outcome. split; [|exact Happ].
        apply in_or_app. right. apply in_or_app. right.
        apply in_or_app. right. now left.
      * split; [now right|]. split; [discriminate|].
        intros (row' & outcome' & Hin & Happ').
        apply in_channel_events in Hin; [|exact Ha]. in_cases Hin.
        injection Hin as <- <-. congruence.
  - pose proof (processFailedPayment_trace E event w) as Ht.
    rewrite Hpd in Ht. rewrite Ht, skipn_length_app.
    rewrite processFailedPayment_run, Hpd. cbn [snd].
    split; [now right|]. split; [discriminate|].
    intros (row & outcome & Hin & _). in_cases Hin.
Qed.

(** X11: when the normalizer throws on a validly signed delivery with
    a recognized type, the dispatcher answers 500, neither channel is
    entered, and the error's message is logged twice: by
    [processFailedPayment] and by the dispatcher. *)
Theorem rejected_envelope_is_a_server_error
    (E : env) (body sig : jsval) (w : world) (event type : jsval) (e : error) :
  constructEvent E w body sig (STRIPE_WEBHOOK_SECRET E) = Ok event ->
  JS.get event "type" = Ok type ->
  JS.includes recognized type = true ->
  paymentData_of E event = Throw e ->
  snd (post_webhook_stripe E body sig w) =
    Ok (Send 500 "Internal Server Error") /\
  delivery_trace E body sig w =
    [Enter fn_processFailedPayment; Leave fn_processFailedPayment] /\
  logs (fst (post_webhook_stripe E body sig w)) =
    push_log
      (push_log (logs w)
         (mkLog (Date.iso_string (now E (ticks w)))
                ("Error processing failed payment: " ++ err_message e)))
      (mkLog (Date.iso_string (now E (S (ticks w))))
             ("Error processing webhook: " ++ err_message e)).
Proof.
  intros Hsig Htype Hrec Hpd. unfold delivery_trace.
  destruct (post_webhook_stripe_recognized E body sig w event type
              Hsig Htype Hrec) as (t & _ & ->).
  rewrite processFailedPayment_run, (record_of_throws E event e Hpd). cbv zeta.
  cbn [fst snd logs ticks trace traced logged].
  repeat split. rewrite <- !app_assoc. apply skipn_length_app.
Qed.

(** X12: when the verified event is [null] or [undefined], reading its
    type throws: the handler's promise is rejected with the
    [TypeError], no response is sent and nothing is logged or
    called. *)
Theorem null_event_rejects_the_handler
    (E : env) (body sig : jsval) (w : world) (event : jsval) :
  constructEvent E w body sig (STRIPE_WEBHOOK_SECRET E) = Ok event ->
  event = JNull \/ event = JUndefined ->
  exists e,
    post_webhook_stripe E body sig w = (w, Throw e) /\
    err_name e = "TypeError".
Proof.
  intros Hsig Hnull. rewrite post_webhook_stripe_run, Hsig.
  destruct Hnull as [-> | ->]; eexists; split; reflexivity.
Qed.

(** X20: when the type of the verified event has no text (an object
    with a [toString] entry, or an array holding one), it is none of
    the three tags and the interpolation of the "Unhandled event type"
    entry throws outside the handler's [try]: the handler's promise is
    rejected with the [TypeError], no response is sent and nothing is
    logged or called. *)
Theorem unprintable_type_rejects_the_handler
    (E : env) (body sig : jsval) (w : world) (event type : jsval) (e : error) :
  constructEvent E w body sig (STRIPE_WEBHOOK_SECRET E) = Ok event ->
  JS.get event "type" = Ok type ->
  JS.to_string (engine E) type = Throw e ->
  post_webhook_stripe E body sig w = (w, Throw e) /\
  err_name e = "TypeError".
Proof.
  intros Hsig Htype Htext.
  split; [|exact (JS_to_string_throws_type _ _ _ Htext)].
  rewrite post_webhook_stripe_run, Hsig, Htype.
  destruct (JS.includes recognized type) eqn:Hrec.
  - destruct (includes_string type Hrec) as [t ->].
    rewrite to_string_str in Htext. discriminate Htext.
  - now rewrite Htext.
Qed.

(** X21: when the normalizer yields a record whose identifier has no
    text, the interpolation of the "Processing failed payment" entry
    throws before either channel is entered: the dispatcher answers
    500 and the [TypeError]'s message is logged twice. *)
Theorem unprintable_identifier_is_a_server_error
    (E : env) (body sig : jsval) (w : world) (event type : jsval)
    (pd : payment_data) (e : error) :
  constructEvent E w body sig (STRIPE_WEBHOOK_SECRET E) = Ok event ->
  JS.get event "type" = Ok type ->
  JS.includes recognized type = true ->
  paymentData_of E event = Ok pd ->
  JS.to_string (engine E) (payment_id pd) = Throw e ->
  snd (post_webhook_stripe E body sig w) =
    Ok (Send 500 "Internal Server Error") /\
  delivery_trace E body sig w =
    [Enter fn_processFailedPayment; Leave fn_processFailedPayment] /\
  logs (fst (post_webhook_stripe E body sig w)) =
    push_log
      (push_log (logs w)
         (mkLog (Date.iso_string (now E (ticks w)))
                ("Error processing failed payment: " ++ err_message e)))
      (mkLog (Date.iso_string (now E (S (ticks w))))
             ("Error processing webhook: " ++ err_message e)) /\
  err_name e = "TypeError".
Proof.
  intros Hsig Htype Hrec Hpd Hid. unfold delivery_trace.
  destruct (post_webhook_stripe_recognized E body sig w event type
              Hsig Htype Hrec) as (t & _ & ->).
  assert (Hrecord : record_of E event = Throw e)
    by (unfold record_of; rewrite Hpd; cbn [rbind]; now rewrite Hid).
  rewrite processFailedPayment_run, Hrecord. cbv zeta.
  cbn [fst snd logs ticks trace traced logged].
  repeat split; [|exact (JS_to_string_throws_type _ _ _ Hid)].
  rewrite <- !app_assoc. apply skipn_length_app.
Qed.

(** ** The log sink across the endpoints *)

Lemma sink_bounded_logged E msg w : sink_bounded (logged E msg w).
Proof.
  unfold sink_bounded. cbn [logged logs]. rewrite push_log_slice.
  rewrite slice_last_length. lia.
Qed.

Lemma sink_bounded_sendGmailAlert E pd w :
  sink_bounded (fst (sendGmailAlert E pd w)).
Proof.
  rewrite sendGmailAlert_run. cbv zeta.
  destruct (alert_message E pd) as [m|e];
    [destruct (gmail_send E _ m) as [[]|e]|];
    apply sink_bounded_logged.
Qed.

Lemma sink_bounded_addToAirtable E pd w :
  sink_bounded (fst (addToAirtable E pd w)).
Proof.
  destruct (row_values (engine E) pd) as [[q cur]|e] eqn:Hc.
  - rewrite (addToAirtable_row E pd w q cur Hc). cbv zeta.
    destruct (store_answer _ _) as [[record0 text]|e];
      apply sink_bounded_logged.
  - rewrite (addToAirtable_no_row E pd w e Hc). apply sink_bounded_logged.
Qed.

Lemma sink_bounded_processFailedPayment E event w :
  sink_bounded (fst (processFailedPayment E event w)).
Proof.
  rewrite processFailedPayment_run. cbv zeta.
  destruct (record_of E event) as [[pd id]|e]; [|apply sink_bounded_logged].
  destruct (addToAirtable E pd _) as [w4 [record|e]];
    apply sink_bounded_logged.
Qed.

(** ** The manual test endpoint *)

Lemma post_test_run E w :
  let w1 := ticked (ticked (logged E "Manual test initiated" w)) in
  let pd :=
    {| payment_id := JStr ("test_" ++ JS.string_of_Z (now E (S (ticks w))));
       customer_email := JStr "test@example.com";
       amount := JNum 2500;
       currency := JStr "usd";
       failure_code := JStr "card_declined";
       failure_message := JStr "Your card was declined.";
       failed_at := JStr (Date.iso_string (now E (S (S (ticks w))))) |} in
  post_test E w =
    match addToAirtable E pd (fst (sendGmailAlert E pd w1)) with
    | (w2, Ok _) =>
        (logged E "Manual test completed successfully" w2,
         Ok (Json 200
               (JObj [("success", JBool true);
                      ("message", JStr "Test completed successfully");
                      ("testData", json_of_payment_data pd)])))
    | (w2, Throw error) =>
        (logged E ("Manual test failed: " ++ err_message error) w2,
         Ok (Json 500
               (JObj [("success", JBool false);
                      ("error", JStr (err_message error))])))
    end.
Proof.
  cbv zeta. unfold post_test.
  cbv beta iota zeta delta [bind try_catch lift ret Date_now now_iso].
  rewrite addLog_run. cbn [ticks logged ticked].
  match goal with
  | |- context [sendGmailAlert E ?pd ?w1] =>
      pose proof (sendGmailAlert_returns E pd w1) as Hret;
      destruct (sendGmailAlert E pd w1) as [w2 r2]
  end.
  cbn [snd fst] in *. subst r2.
  destruct (addToAirtable E _ w2) as [w3 [record|e]]; reflexivity.
Qed.

(** X13: no endpoint lets the sink outgrow its capacity: from a world
    whose sink holds at most 50 entries, a webhook delivery and a
    manual test both end in such a world, whatever the request and
    whatever the collaborators answer. *)
Theorem endpoints_keep_the_sink_bounded
    (E : env) (body sig : jsval) (w : world) :
  sink_bounded w ->
  sink_bounded (fst (post_webhook_stripe E body sig w)) /\
  sink_bounded (fst (post_test E w)).
Proof.
  intros Hw. split.
  - rewrite post_webhook_stripe_run.
    destruct (constructEvent E w body sig _) as [event|err];
      [|apply sink_bounded_logged].
    destruct (JS.get event "type") as [type|e]; [|exact Hw].
    destruct (JS.includes recognized type).
    + destruct (processFailedPayment E event w) as [w1 [[]|error]];
        [destruct (JS.to_string (engine E) type)|];
        apply sink_bounded_logged.
    + destruct (JS.to_string (engine E) type);
        [apply sink_bounded_logged | exact Hw].
  - rewrite post_test_run. cbv zeta.
    destruct (addToAirtable E _ _) as [w2 [record|e]];
      apply sink_bounded_logged.
Qed.

(** X14: a manual test always exercises both channels, the
    notification first: Gmail is called exactly once, then the store
    exactly once, with a row made of the fixed test values (2500
    minor units, "USD", "card_declined", test@example.com) under a
    payment identifier "test_" followed by the current time in
    milliseconds. *)
Theorem post_test_calls_both_channels (E : env) (w : world) :
  exists m sent row outcome,
    events_since w (fst (post_test E w)) =
      [Enter fn_sendGmailAlert; GmailSend m sent; Leave fn_sendGmailAlert;
       Enter fn_addToAirtable; TableCreate row outcome;
       Leave fn_addToAirtable] /\
    Payment_ID row =
      JStr ("test_" ++ JS.string_of_Z (now E (S (ticks w)))) /\
    Customer_Email row = JStr "test@example.com" /\
    Amount row = mkQuotient (JNum 2500) 100 /\
    Currency row = JStr "USD" /\
    Failure_Code row = JStr "card_declined" /\
    Failure_Message row = JStr "Your card was declined." /\
    Failed_At row = JStr (Date.iso_string (now E (S (S (ticks w))))) /\
    Status row = JStr "New" /\
    subject_customer m = "test@example.com" /\
    body_currency m = "USD".
Proof.
  rewrite post_test_run. cbv zeta.
  rewrite sendGmailAlert_run. cbv zeta.
  match goal with
  | |- context [alert_message E ?pd] =>
      destruct (alert_message_plain E pd "usd" eq_refl eq_refl) as [m Hm];
      rewrite Hm;
      destruct (alert_message_inv E pd m Hm)
        as (Hsub & _ & _ & _ & Hcur & _)
  end.
  injection Hsub as Hsub. injection Hcur as Hcur.
  destruct (gmail_send E _ _) as [[]|e]; cbn [fst];
    match goal with
    | |- context [addToAirtable E ?pd ?w0] =>
        rewrite (addToAirtable_row E pd w0
                   (mkQuotient (JNum 2500) 100) "USD" eq_refl)
    end; cbv zeta;
    (destruct (store_answer _ _) as [[record0 text]|e1];
     do 4 eexists;
     (split;
      [apply events_since_app;
       cbn [fst trace traced logged ticked];
       rewrite <- !app_assoc; reflexivity|]);
     cbn [ticks traced logged ticked]; repeat split;
     solve [now rewrite <- Hsub | now rewrite <- Hcur]).
Qed.


(** ** The customer's address for intents and invoices *)

(** X16: for a payment-intent-failed envelope the record's
    [customer_email] is the intent's receipt e-mail when present and
    "Unknown" otherwise; for an invoice-payment-failed envelope it is
    the invoice's customer e-mail when present and "Unknown"
    otherwise.  Neither consults billing details. *)
Theorem intent_and_invoice_email_fallback
    (E : env) (type : string) (created : Z)
    (object : list (string * jsval)) (event : jsval) :
  envelope type created object event ->
  (type = "payment_intent.payment_failed" ->
     exists pd,
       paymentData_of E event = Ok pd /\
       customer_email pd =
         first_present [JS.assoc "receipt_email" object] (JStr "Unknown")) /\
  (type = "invoice.payment_failed" ->
     exists pd,
       paymentData_of E event = Ok pd /\
       customer_email pd =
         first_present [JS.assoc "customer_email" object] (JStr "Unknown")).
Proof.
  intros Henv. split; intros ->; eexists; (split;
    [first [apply (paymentData_of_intent E _ _ _ Henv)
           |apply (paymentData_of_invoice E _ _ _ Henv)]|]);
    cbn [customer_email]; unfold first_present, JS.or; cbn [find];
    match goal with |- context [JS.truthy ?v] => now destruct (JS.truthy v) end.
Qed.

(** ** The calendar date of [toISOString] *)

Lemma leap_spec y :
  Calendar.leap y = true <->
  (y mod 4 = 0 /\ (y mod 100 <> 0 \/ y mod 400 = 0)).
Proof.
  unfold Calendar.leap.
  rewrite andb_true_iff, orb_true_iff, negb_true_iff, !Z.eqb_eq, Z.eqb_neq.
  reflexivity.
Qed.

(** The year of the era and the day of that year (counted from
    1 March) that [Date.civil] computes. *)
Lemma civil_year_of_era doe :
  0 <= doe < 146097 ->
  let yoe := (doe - doe / 1460 + doe / 36524 - doe / 146096) / 365 in
  let doy := doe - (365 * yoe + yoe / 4 - yoe / 100) in
  0 <= yoe < 400 /\ 0 <= doy <= 365 /\
  (doy = 365 ->
   (yoe + 1) mod 4 = 0 /\ ((yoe + 1) mod 100 <> 0 \/ yoe = 399)).
Proof. intros H. cbv zeta. Z.div_mod_to_equations. lia. Qed.

Ltac eval_closed :=
  repeat match goal with
    | |- context [Z.ltb ?a ?b] =>
        let v := eval vm_compute in (Z.ltb a b) in change (Z.ltb a b) with v
    | |- context [Z.leb ?a ?b] =>
        let v := eval vm_compute in (Z.leb a b) in change (Z.leb a b) with v
    | |- context [Z.eqb ?a ?b] =>
        let v := eval vm_compute in (Z.eqb a b) in change (Z.eqb a b) with v
    | |- context [existsb ?f ?l] =>
        let v := eval vm_compute in (existsb f l) in change (existsb f l) with v
    | |- context [nth ?n ?l ?d] =>
        let v := eval vm_compute in (nth n l d) in change (nth n l d) with v
    | |- context [(153 * ?k + 2) / 5] =>
        let v := eval vm_compute in ((153 * k + 2) / 5) in
        change ((153 * k + 2) / 5) with v
    end.

(** X17: the year, month and day that [Date.civil] (and so
    [toISOString]) gives for a day number are a date of the calendar,
    month 1 to 12 and day within the month's length, and that date's
    day number by the standard's [DayFromYear] is the day number
    given; the year is the one whose days contain it. *)
Theorem civil_is_the_calendar_date (days : Z) :
  let '(y, m, d) := Date.civil days in
  1 <= m <= 12 /\
  1 <= d <= Calendar.days_in_month y m /\
  Calendar.day_number y m d = days /\
  Calendar.DayFromYear y <= days < Calendar.DayFromYear (y + 1).
Proof.
  unfold Date.civil.
  set (z := days + 719468). set (era := z / 146097).
  set (doe := z - era * 146097).
  assert (Hdoe : 0 <= doe < 146097)
    by (subst doe era; Z.div_mod_to_equations; lia).
  pose proof (civil_year_of_era doe Hdoe) as Hy. cbv zeta in Hy.
  set (yoe := (doe - doe / 1460 + doe / 36524 - doe / 146096) / 365) in *.
  set (doy := doe - (365 * yoe + yoe / 4 - yoe / 100)) in *.
  destruct Hy as (Hyoe & Hdoy & Hlast).
  set (mp := (5 * doy + 2) / 153).
  assert (Hmp : 0 <= mp <= 11) by (subst mp; Z.div_mod_to_equations; lia).
  assert (Hmpd : 153 * mp <= 5 * doy + 2 < 153 * mp + 153)
    by (subst mp; Z.div_mod_to_equations; lia).
  assert (Hdays : days = 146097 * era + 365 * yoe + yoe / 4 - yoe / 100 +
                         doy - 719468)
    by (subst doy doe z; lia).
  clearbody mp doy yoe era. clear doe z Hdoe.
  assert (Hcases : mp = 0 \/ mp = 1 \/ mp = 2 \/ mp = 3 \/ mp = 4 \/ mp = 5 \/
                   mp = 6 \/ mp = 7 \/ mp = 8 \/ mp = 9 \/ mp = 10 \/ mp = 11)
    by lia.
  cbv zeta.
  unfold Calendar.day_number, Calendar.days_before_month,
    Calendar.days_in_month, Calendar.DayFromYear.
  repeat (destruct Hcases as [-> | Hcases]); [.. | subst mp];
    eval_closed; cbv iota; eval_closed; cbv iota; eval_closed; cbv iota.
  all: match goal with
       | |- context [Calendar.leap ?y] =>
           destruct (Calendar.leap y) eqn:HL;
           [apply leap_spec in HL
           |assert (HL' : ~ (y mod 4 = 0 /\ (y mod 100 <> 0 \/ y mod 400 = 0)))
              by (rewrite <- leap_spec, HL; discriminate); clear HL]
       | _ => idtac
       end.
  all: Z.div_mod_to_equations; lia.
Qed.

(** ** The further properties on the sample deliveries *)

Lemma addToAirtable_rethrows_store_error_witness :
  exists row,
    In (TableCreate row (Throw Sample.quota_exceeded))
       (events_since initial_world
          (fst (addToAirtable Sample.store_down Sample.record initial_world))) /\
    snd (addToAirtable Sample.store_down Sample.record initial_world) =
      Throw Sample.quota_exceeded /\
    logged_in ("Error adding to Airtable: " ++
               err_message Sample.quota_exceeded)
              (fst (addToAirtable Sample.store_down Sample.record
                      initial_world)).
Proof.
  assert (Hin : exists row,
             In (TableCreate row (Throw Sample.quota_exceeded))
                (events_since initial_world
                   (fst (addToAirtable Sample.store_down Sample.record
                           initial_world))))
    by (eexists; vm_compute; right; left; reflexivity).
  destruct Hin as [row Hin]. exists row. split; [exact Hin|].
  exact (addToAirtable_rethrows_store_error Sample.store_down Sample.record
           initial_world row Sample.quota_exceeded Hin).
Defined.

Lemma record_without_currency_has_none :
  forall c, currency Sample.record_without_currency <> JStr c.
Proof. intros c. discriminate. Defined.

Lemma addToAirtable_without_currency_witness :
  (forall c, currency Sample.record_without_currency <> JStr c) /\
  events_since initial_world
    (fst (addToAirtable Sample.healthy Sample.record_without_currency
            initial_world)) =
    [Enter fn_addToAirtable; Leave fn_addToAirtable] /\
  exists e,
    snd (addToAirtable Sample.healthy Sample.record_without_currency
           initial_world) = Throw e /\
    err_name e = "TypeError".
Proof.
  split; [exact record_without_currency_has_none|].
  exact (addToAirtable_without_currency Sample.healthy
           Sample.record_without_currency initial_world
           record_without_currency_has_none).
Defined.

Lemma sendGmailAlert_without_currency_witness :
  (forall c, currency Sample.record_without_currency <> JStr c) /\
  snd (sendGmailAlert Sample.healthy Sample.record_without_currency
         initial_world) = Ok tt /\
  events_since initial_world
    (fst (sendGmailAlert Sample.healthy Sample.record_without_currency
            initial_world)) =
    [Enter fn_sendGmailAlert; Leave fn_sendGmailAlert] /\
  exists e,
    err_name e = "TypeError" /\
    logs (fst (sendGmailAlert Sample.healthy Sample.record_without_currency
                 initial_world)) =
      push_log (logs initial_world)
        (mkLog (Date.iso_string (now Sample.healthy (ticks initial_world)))
               ("Error sending Gmail alert: " ++ err_message e)).
Proof.
  split; [exact record_without_currency_has_none|].
  exact (sendGmailAlert_without_currency Sample.healthy
           Sample.record_without_currency initial_world
           record_without_currency_has_none).
Defined.

Lemma sendGmailAlert_message_defaults_witness :
  plain_record Sample.record = true /\
  currency Sample.record = JStr "usd" /\
  exists m outcome,
    events_since initial_world
      (fst (sendGmailAlert Sample.gmail_down Sample.record initial_world)) =
      [Enter fn_sendGmailAlert; GmailSend m outcome;
       Leave fn_sendGmailAlert] /\
    body_currency m = "USD" /\
    subject_customer m = "Unknown Customer" /\
    body_customer m = "Not available" /\
    body_failure_code m = "Not specified" /\
    body_failure_message m = "Not specified" /\
    mail_to m = "admin@example.com".
Proof.
  do 2 (split; [reflexivity|]).
  destruct (sendGmailAlert_message_defaults Sample.gmail_down Sample.record
              initial_world) as [Hall Hsome].
  destruct (Hsome "usd" eq_refl eq_refl) as (m & outcome & Hev).
  assert (Hin : In (GmailSend m outcome)
                   (events_since initial_world
                      (fst (sendGmailAlert Sample.gmail_down Sample.record
                              initial_world))))
    by (rewrite Hev; right; left; reflexivity).
  destruct (Hall m outcome Hin)
    as (_ & (c & Hc & Hcur) & Hcust & _ & Hcode & Hmsg & Hto & _).
  exists m, outcome. split; [exact Hev|].
  split; [injection Hc as <-; exact Hcur|].
  split; [exact (proj1 (Hcust eq_refl))|].
  split; [exact (proj2 (Hcust eq_refl))|].
  split; [exact (Hcode eq_refl)|].
  split; [exact (Hmsg eq_refl) | exact (Hto (or_introl eq_refl))].
Defined.

Lemma normalizer_rejects_invalid_created_witness :
  JS.get Sample.charge_without_created "type" = Ok (JStr "charge.failed") /\
  In "charge.failed" recognized /\
  event_data_object Sample.charge_without_created = Ok (JObj Sample.charge) /\
  JS.get Sample.charge_without_created "created" = Ok JUndefined /\
  times_1000 (engine Sample.healthy) JUndefined = Ok None /\
  paymentData_of Sample.healthy Sample.charge_without_created =
    Throw Date.invalid_time.
Proof.
  do 5 (split; [reflexivity || exact charge_failed_recognized|]).
  exact (normalizer_rejects_invalid_created Sample.healthy
           Sample.charge_without_created "charge.failed" Sample.charge
           JUndefined eq_refl charge_failed_recognized eq_refl eq_refl I).
Defined.

Lemma normalizer_rejects_missing_payload_witness :
  JS.get Sample.charge_without_data "type" = Ok (JStr "charge.failed") /\
  In "charge.failed" recognized /\
  JS.get Sample.charge_without_data "data" = Ok JUndefined /\
  paymentData_of Sample.healthy Sample.charge_without_data =
    Throw (JS.cannot_read "undefined" "object").
Proof.
  do 3 (split; [reflexivity || exact charge_failed_recognized|]).
  exact (proj1 (normalizer_rejects_missing_payload Sample.healthy
                  Sample.charge_without_data "charge.failed"
                  eq_refl charge_failed_recognized) eq_refl).
Defined.

Lemma processFailedPayment_unrecognized_type_witness :
  JS.get Sample.customer_created "type" = Ok (JStr "customer.created") /\
  JS.includes recognized (JStr "customer.created") = false /\
  events_since initial_world
    (fst (processFailedPayment Sample.healthy Sample.customer_created
            initial_world)) =
    [Enter fn_processFailedPayment;
     Enter fn_sendGmailAlert; Leave fn_sendGmailAlert;
     Enter fn_addToAirtable; Leave fn_addToAirtable;
     Leave fn_processFailedPayment] /\
  snd (processFailedPayment Sample.healthy Sample.customer_created
         initial_world) =
    Throw (JS.cannot_read "undefined" "toUpperCase") /\
  logged_in "Processing failed payment: undefined"
            (fst (processFailedPayment Sample.healthy Sample.customer_created
                    initial_world)).
Proof.
  do 2 (split; [reflexivity|]).
  exact (processFailedPayment_unrecognized_type Sample.healthy
           Sample.customer_created (JStr "customer.created") initial_world
           eq_refl eq_refl).
Defined.

Lemma webhook_answer_follows_the_store_witness :
  constructEvent Sample.store_down initial_world Sample.charge_failed
    Sample.signature (STRIPE_WEBHOOK_SECRET Sample.store_down) =
    Ok Sample.charge_failed /\
  JS.get Sample.charge_failed "type" = Ok (JStr "charge.failed") /\
  JS.includes recognized (JStr "charge.failed") = true /\
  (snd (post_webhook_stripe Sample.store_down Sample.charge_failed
          Sample.signature initial_world) = Ok (Json 200 received_true) \/
   snd (post_webhook_stripe Sample.store_down Sample.charge_failed
          Sample.signature initial_world) =
     Ok (Send 500 "Internal Server Error")) /\
  (snd (post_webhook_stripe Sample.store_down Sample.charge_failed
          Sample.signature initial_world) = Ok (Json 200 received_true) <->
   exists row outcome,
     In (TableCreate row outcome)
        (delivery_trace Sample.store_down Sample.charge_failed
           Sample.signature initial_world) /\
     appended (engine Sample.store_down) outcome = true).
Proof.
  do 3 (split; [reflexivity|]).
  exact (webhook_answer_follows_the_store Sample.store_down
           Sample.charge_failed Sample.signature initial_world
           Sample.charge_failed (JStr "charge.failed")
           eq_refl eq_refl eq_refl).
Defined.

Lemma rejected_envelope_is_a_server_error_witness :
  constructEvent Sample.healthy initial_world Sample.charge_without_created
    Sample.signature (STRIPE_WEBHOOK_SECRET Sample.healthy) =
    Ok Sample.charge_without_created /\
  JS.get Sample.charge_without_created "type" = Ok (JStr "charge.failed") /\
  JS.includes recognized (JStr "charge.failed") = true /\
  paymentData_of Sample.healthy Sample.charge_without_created =
    Throw Date.invalid_time /\
  snd (post_webhook_stripe Sample.healthy Sample.charge_without_created
         Sample.signature initial_world) =
    Ok (Send 500 "Internal Server Error") /\
  delivery_trace Sample.healthy Sample.charge_without_created
    Sample.signature initial_world =
    [Enter fn_processFailedPayment; Leave fn_processFailedPayment] /\
  logs (fst (post_webhook_stripe Sample.healthy Sample.charge_without_created
               Sample.signature initial_world)) =
    [mkLog "2023-11-14T22:13:20.000Z"
           "Error processing failed payment: Invalid time value";
     mkLog "2023-11-14T22:13:20.001Z"
           "Error processing webhook: Invalid time value"].
Proof.
  do 4 (split; [reflexivity|]).
  exact (rejected_envelope_is_a_server_error Sample.healthy
           Sample.charge_without_created Sample.signature initial_world
           Sample.charge_without_created (JStr "charge.failed")
           Date.invalid_time eq_refl eq_refl eq_refl eq_refl).
Defined.

Lemma null_event_rejects_the_handler_witness :
  constructEvent Sample.healthy initial_world JNull Sample.signature
    (STRIPE_WEBHOOK_SECRET Sample.healthy) = Ok JNull /\
  exists e,
    post_webhook_stripe Sample.healthy JNull Sample.signature initial_world =
      (initial_world, Throw e) /\
    err_name e = "TypeError".
Proof.
  split; [reflexivity|].
  exact (null_event_rejects_the_handler Sample.healthy JNull Sample.signature
           initial_world JNull eq_refl (or_introl eq_refl)).
Defined.

Lemma unprintable_type_rejects_the_handler_witness :
  constructEvent Sample.healthy initial_world Sample.odd_type Sample.signature
    (STRIPE_WEBHOOK_SECRET Sample.healthy) = Ok Sample.odd_type /\
  JS.get Sample.odd_type "type" = Ok Sample.no_text /\
  JS.to_string (engine Sample.healthy) Sample.no_text =
    Throw JS.not_primitive /\
  post_webhook_stripe Sample.healthy Sample.odd_type Sample.signature
    initial_world = (initial_world, Throw JS.not_primitive) /\
  err_name JS.not_primitive = "TypeError".
Proof.
  do 3 (split; [reflexivity|]).
  exact (unprintable_type_rejects_the_handler Sample.healthy Sample.odd_type
           Sample.signature initial_world Sample.odd_type Sample.no_text
           JS.not_primitive eq_refl eq_refl eq_refl).
Defined.

Lemma odd_charge_record :
  paymentData_of Sample.healthy Sample.odd_charge_failed =
    Ok Sample.odd_record.
Proof. vm_compute. reflexivity. Defined.

Lemma unprintable_identifier_is_a_server_error_witness :
  constructEvent Sample.healthy initial_world Sample.odd_charge_failed
    Sample.signature (STRIPE_WEBHOOK_SECRET Sample.healthy) =
    Ok Sample.odd_charge_failed /\
  JS.get Sample.odd_charge_failed "type" = Ok (JStr "charge.failed") /\
  JS.includes recognized (JStr "charge.failed") = true /\
  paymentData_of Sample.healthy Sample.odd_charge_failed =
    Ok Sample.odd_record /\
  JS.to_string (engine Sample.healthy) (payment_id Sample.odd_record) =
    Throw JS.not_primitive /\
  snd (post_webhook_stripe Sample.healthy Sample.odd_charge_failed
         Sample.signature initial_world) =
    Ok (Send 500 "Internal Server Error") /\
  delivery_trace Sample.healthy Sample.odd_charge_failed
    Sample.signature initial_world =
    [Enter fn_processFailedPayment; Leave fn_processFailedPayment] /\
  logs (fst (post_webhook_stripe Sample.healthy Sample.odd_charge_failed
               Sample.signature initial_world)) =
    [mkLog "2023-11-14T22:13:20.000Z"
           "Error processing failed payment: Cannot convert object to primitive value";
     mkLog "2023-11-14T22:13:20.001Z"
           "Error processing webhook: Cannot convert object to primitive value"] /\
  err_name JS.not_primitive = "TypeError".
Proof.
  do 3 (split; [reflexivity|]). split; [exact odd_charge_record|].
  split; [reflexivity|].
  exact (unprintable_identifier_is_a_server_error Sample.healthy
           Sample.odd_charge_failed Sample.signature initial_world
           Sample.odd_charge_failed (JStr "charge.failed") Sample.odd_record
           JS.not_primitive eq_refl eq_refl eq_refl odd_charge_record eq_refl).
Defined.

Lemma initial_world_bounded : sink_bounded initial_world.
Proof. unfold sink_bounded. cbn. lia. Defined.

Lemma endpoints_keep_the_sink_bounded_witness :
  sink_bounded initial_world /\
  sink_bounded (fst (post_webhook_stripe Sample.healthy Sample.charge_failed
                       Sample.signature initial_world)) /\
  sink_bounded (fst (post_test Sample.healthy initial_world)).
Proof.
  split; [exact initial_world_bounded|].
  exact (endpoints_keep_the_sink_bounded Sample.healthy Sample.charge_failed
           Sample.signature initial_world initial_world_bounded).
Defined.


Lemma intent_and_invoice_email_fallback_witness :
  envelope "invoice.payment_failed" 1700000000
           Sample.invoice Sample.invoice_failed /\
  exists pd,
    paymentData_of Sample.healthy Sample.invoice_failed = Ok pd /\
    customer_email pd = JStr "Unknown".
Proof.
  assert (Henv : envelope "invoice.payment_failed" 1700000000
                          Sample.invoice Sample.invoice_failed)
    by (repeat split).
  split; [exact Henv|].
  exact (proj2 (intent_and_invoice_email_fallback Sample.healthy
                  "invoice.payment_failed" 1700000000 Sample.invoice
                  Sample.invoice_failed Henv) eq_refl).
Defined.

(** ** From the envelope to the stored row *)

Lemma recognized_includes type :
  In type recognized -> JS.includes recognized (JStr type) = true.
Proof.
  intros Hin. destruct (recognized_cases _ Hin) as [-> | [-> | ->]];
    reflexivity.
Qed.

Lemma paymentData_of_envelope E type created object event :
  envelope type created object event ->
  In type recognized ->
  exists pd,
    paymentData_of E event = Ok pd /\
    payment_id pd = JS.assoc "id" object /\
    amount pd = JS.assoc (amount_field type) object /\
    currency pd = JS.assoc "currency" object /\
    failed_at pd = JStr (Date.iso_string (created * 1000)).
Proof.
  intros Henv Hin.
  destruct (recognized_cases _ Hin) as [-> | [-> | ->]]; eexists;
    (split;
     [first [apply (paymentData_of_intent E _ _ _ Henv)
            |apply (paymentData_of_invoice E _ _ _ Henv)
            |apply (paymentData_of_charge E _ _ _ Henv)]|]);
    repeat split.
Qed.

(** X18: for a validly signed, well-formed envelope with a recognized
    tag whose payload has a currency string, an identifier that has a
    text and an amount that converts to a primitive value, the store is
    handed a row that carries the payload's identifier, its amount (to
    be divided by 100), its currency as [toUpperCase] returns it, the
    ISO text of the envelope's creation time and the status "New". *)
Theorem stored_row_matches_the_payload
    (E : env) (body sig : jsval) (w : world)
    (type : string) (created : Z) (object : list (string * jsval))
    (event : jsval) (c text : string) (p : jsval) :
  constructEvent E w body sig (STRIPE_WEBHOOK_SECRET E) = Ok event ->
  envelope type created object event ->
  In type recognized ->
  JS.assoc "currency" object = JStr c ->
  JS.to_string (engine E) (JS.assoc "id" object) = Ok text ->
  JS.to_primitive (engine E) (JS.assoc (amount_field type) object) = Ok p ->
  exists row outcome,
    In (TableCreate row outcome) (delivery_trace E body sig w) /\
    Payment_ID row = JS.assoc "id" object /\
    Amount row = mkQuotient (JS.assoc (amount_field type) object) 100 /\
    Currency row = JStr (JS.upper_string (engine E) c) /\
    Failed_At row = JStr (Date.iso_string (created * 1000)) /\
    Status row = JStr "New".
Proof.
  intros Hsig Henv Hin Hcur Htext Hprim.
  destruct (paymentData_of_envelope E _ _ _ _ Henv Hin)
    as (pd & Hpd & Hid & Ham & Hc & Hfailed).
  rewrite Hcur in Hc. rewrite <- Hid in Htext. rewrite <- Ham in Hprim.
  unfold delivery_trace.
  rewrite (post_webhook_stripe_trace E body sig w event (JStr type) Hsig
             (proj1 Henv) (recognized_includes _ Hin)).
  rewrite processFailedPayment_run, (record_of_ok E event pd text Hpd Htext).
  cbv zeta.
  set (w2 := logged E _ _).
  destruct (sendGmailAlert_trace E pd w2) as (a & Ha & _).
  rewrite (addToAirtable_row E pd _ _ _ (row_values_ok _ pd c p Hc Hprim)).
  cbv zeta.
  destruct (store_answer _ _) as [[record0 id]|e];
    match goal with
    | |- context [TableCreate ?r ?o] => exists r, o
    end;
    (split;
     [cbn [fst trace traced logged ticked]; rewrite Ha; subst w2;
      cbn [trace traced logged ticked];
      rewrite <- !app_assoc; rewrite skipn_length_app;
      rewrite !in_app_iff; cbn [In]; tauto|]);
    cbn [Payment_ID Amount Currency Failed_At Status];
    rewrite Hid, Ham, Hfailed; repeat split.
Qed.

Lemma stored_row_matches_the_payload_witness :
  constructEvent Sample.healthy initial_world Sample.charge_failed
    Sample.signature (STRIPE_WEBHOOK_SECRET Sample.healthy) =
    Ok Sample.charge_failed /\
  envelope "charge.failed" 1700000000 Sample.charge Sample.charge_failed /\
  In "charge.failed" recognized /\
  JS.assoc "currency" Sample.charge = JStr "usd" /\
  JS.to_string (engine Sample.healthy) (JS.assoc "id" Sample.charge) =
    Ok "ch_1" /\
  JS.to_primitive (engine Sample.healthy)
    (JS.assoc (amount_field "charge.failed") Sample.charge) = Ok (JNum 2500) /\
  exists row outcome,
    In (TableCreate row outcome)
       (delivery_trace Sample.healthy Sample.charge_failed Sample.signature
                       initial_world) /\
    Payment_ID row = JStr "ch_1" /\
    Amount row = mkQuotient (JNum 2500) 100 /\
    Currency row = JStr "USD" /\
    Failed_At row = JStr "2023-11-14T22:13:20.000Z" /\
    Status row = JStr "New".
Proof.
  split; [reflexivity|]. split; [exact charge_failed_envelope|].
  split; [exact charge_failed_recognized|]. do 3 (split; [reflexivity|]).
  exact (stored_row_matches_the_payload Sample.healthy Sample.charge_failed
           Sample.signature initial_world "charge.failed" 1700000000
           Sample.charge Sample.charge_failed "usd" "ch_1" (JNum 2500)
           eq_refl charge_failed_envelope charge_failed_recognized
           eq_refl eq_refl eq_refl).
Defined.

(** ** The console *)

(** X19: [addLog] prints every entry it appends: after a run of
    appends the console holds one line per message, in order and with
    the entry's timestamp, including the entries the sink has already
    evicted. *)
Theorem console_keeps_every_entry
    (E : env) (messages : list string) (w : world) :
  console (addLog_all E messages w) =
    (console w ++ map console_line (stamped E (ticks w) messages))%list.
Proof.
  revert w. induction messages as [|m rest IH]; intros w.
  - cbn. now rewrite app_nil_r.
  - rewrite addLog_all_cons, IH. cbn [logged console ticks stamped map].
    now rewrite <- app_assoc.
Qed.
